(** * oxylabs-sdk-go: the yandex entry points of the SERP clients

    A shallow embedding of [serp/yandex.go] (client [SerpClient]),
    [serp/yandex_async.go] (client [SerpClientAsync]) and
    [internal/utils.go], with the properties of the asynchronous
    submit-and-poll handshake.

    Go values are modelled as follows.
    - [string], [oxylabs.Domain], [oxylabs.Locale], [oxylabs.UserAgent],
      [oxylabs.Render] and [[]byte] are Rocq strings;
    - [int] and [time.Duration] are [Z];
    - an [error] is the text of its [Error()] method, [nil] is [None];
    - a pointer that may be [nil] is an [option];
    - [map[string]interface{}] is a [gmap string json];
    - an unbuffered channel is a number, and the goroutines that are
      blocked sending on channels are kept in the [goroutines] of the
      state.  *)

From Stdlib Require Import ZArith String Ascii List.
From stdpp Require Import base tactics option list strings gmap.

Local Open Scope string_scope.
Local Open Scope Z_scope.
Local Open Scope list_scope.

(** An [error] value that is not [nil], by the text it prints.  *)
Definition error : Type := string.

(** [fmt.Errorf(prefix + "%v", x)] for the formats used here: the text
    is the prefix followed by the printed argument. *)
Definition Errorf (prefix : string) (arg : string) : error := prefix +:+ arg.

(** ** Package [strings] and [net/url] (Go's library) *)

Module strings.

(** [strings.HasPrefix(s, prefix)]. *)
Fixpoint HasPrefix (s prefix : string) {struct prefix} : bool :=
  match prefix with
  | EmptyString => true
  | String a prefix' =>
      match s with
      | EmptyString => false
      | String b s' => if Ascii.eqb a b then HasPrefix s' prefix' else false
      end
  end.

(** [strings.Index(s, substr)]: the index of the first instance of
    [substr] in [s], or [-1]. *)
Fixpoint Index (s substr : string) : Z :=
  if HasPrefix s substr then 0
  else match s with
       | EmptyString => -1
       | String _ s' =>
           let i := Index s' substr in
           if i <? 0 then -1 else i + 1
       end.

(** [func Contains(s, substr string) bool { return Index(s, substr) >= 0 }] *)
Definition Contains (s substr : string) : bool := 0 <=? Index s substr.

End strings.

Module url.

(** The fields of [url.URL] that the repository reads. *)
Record URL := { Scheme : string; Host : string; Path : string }.

(** [url.ParseRequestURI] belongs to Go's library; the development is
    parametric in it. *)
Class Parser := { ParseRequestURI : string → URL + error }.

End url.

(** ** Package [internal] *)

Module internal.

(** [InList] checks if a value is present in the given slice.  The
    items are compared with [==]; the package calls [InList] at strings,
    where [==] is equality of values, and so is the comparison here. *)
Fixpoint InList {T} `{EqDecision T} (val : T) (list : list T) : bool :=
  match list with
  | [] => false
  | item :: rest => if decide (item = val) then true else InList val rest
  end.

(** The defaults of the package (its constants and [SetDefault...]
    helpers) are collaborators of the entry points.  A helper receives a
    pointer and may overwrite what it points to: here it maps the old
    value of the field to the new one. *)
Class Defaults := {
  DefaultTimeout : Z;
  DefaultLimit_SERP : Z;
  SetDefaultDomain : string → string;
  SetDefaultStartPage : Z → Z;
  SetDefaultLimit : Z → Z → Z;
  SetDefaultPages : Z → Z;
  SetDefaultUserAgent : string → string;
}.

Section ValidateUrl.
Context `{url.Parser}.

(** [ValidateUrl] validates non-empty URL's scheme, host, and matches
    expected domain or host. *)
Definition ValidateUrl (inputUrl : string) (host : string) : option error :=
  if decide (inputUrl = "") then
    Some "URL parameter is empty"
  else
    match url.ParseRequestURI inputUrl with
    | inr err => Some (Errorf "failed to parse URL: " err)
    | inl parsedUrl =>
        if decide (url.Scheme parsedUrl = "") then
          Some "URL is missing scheme"
        else if decide (url.Host parsedUrl = "") then
          Some "URL is missing a host"
        else if negb (strings.Contains (url.Host parsedUrl) host) then
          Some (Errorf "URL does not belong to " host)
        else None
    end.
End ValidateUrl.

End internal.

(** ** JSON values: what an [interface{}] of a payload holds *)

Local Unset Elimination Schemes.
Inductive json :=
| JNull
| JBool (b : bool)
| JNum (n : Z)
| JStr (s : string)
| JArr (l : list json)
| JObj (m : gmap string json).
Local Set Elimination Schemes.

(** ** Package [context] (Go's library)

    A context as the entry points build and receive it.  [WithCancel]
    records whether its [cancel] function has been called when the
    entry point is entered. *)

Module context.

Inductive Context :=
| Background
| WithTimeout (parent : Context) (timeout : Z)
| WithCancel (parent : Context) (cancelled : bool).

(** [ctx.Err()] when the entry point is entered: a timeout that is not
    positive has expired at once, a cancelled context is cancelled,
    and a child is done as soon as its parent is. *)
Fixpoint Err (ctx : Context) : option error :=
  match ctx with
  | Background => None
  | WithTimeout parent timeout =>
      match Err parent with
      | Some e => Some e
      | None => if timeout <=? 0 then Some "context deadline exceeded" else None
      end
  | WithCancel parent cancelled =>
      match Err parent with
      | Some e => Some e
      | None => if cancelled then Some "context canceled" else None
      end
  end.

End context.

(** ** Package [oxylabs]: constants and validators used by the yandex
    entry points.  The package is a collaborator; its values are
    parameters. *)

Module oxylabs.

Definition Domain := string.
Definition Locale := string.
Definition UserAgent := string.
Definition Render := string.
Definition Source := string.

Class Pkg := {
  DOMAIN_COM : Domain; DOMAIN_RU : Domain; DOMAIN_UA : Domain;
  DOMAIN_BY : Domain; DOMAIN_KZ : Domain; DOMAIN_TR : Domain;
  LOCALE_EN : Locale; LOCALE_RU : Locale; LOCALE_BY : Locale;
  LOCALE_DE : Locale; LOCALE_FR : Locale; LOCALE_ID : Locale;
  LOCALE_KK : Locale; LOCALE_TT : Locale; LOCALE_TR : Locale;
  LOCALE_UK : Locale;
  YandexSearch : Source;
  YandexUrl : Source;
  IsUserAgentValid : UserAgent → bool;
  IsRenderValid : Render → bool;
  ValidateParseInstructions : gmap string json → option error;
}.

End oxylabs.

(** ** Package [serp] *)

Module serp.

(** The types of the package that the entry points only pass around:
    [http.Response] (behind a pointer), [Resp] (behind a pointer) and
    the job identifier that [GetJobID] returns. *)
Class Types := { HttpResponse : Type; Resp : Type; JobID : Type }.

(** *** Options *)

Module YandexSearchOpts.
(** [YandexSearchOpts] contains all the query parameters available for
    yandex_search. *)
Record t := {
  Domain : oxylabs.Domain;
  StartPage : Z;
  Pages : Z;
  Limit : Z;
  Locale : oxylabs.Locale;
  GeoLocation : string;
  UserAgent : oxylabs.UserAgent;
  CallbackUrl : string;
  ParseInstructions : option (gmap string json);
  PollInterval : Z;
}.

(** [&YandexSearchOpts{}] *)
Definition zero : t :=
  {| Domain := ""; StartPage := 0; Pages := 0; Limit := 0; Locale := "";
     GeoLocation := ""; UserAgent := ""; CallbackUrl := "";
     ParseInstructions := None; PollInterval := 0 |}.
End YandexSearchOpts.

Module YandexUrlOpts.
(** [YandexUrlOpts] contains all the query parameters available for
    yandex. *)
Record t := {
  UserAgent : oxylabs.UserAgent;
  Render : oxylabs.Render;
  CallbackUrl : string;
  ParseInstructions : option (gmap string json);
  PollInterval : Z;
}.

(** [&YandexUrlOpts{}] *)
Definition zero : t :=
  {| UserAgent := ""; Render := ""; CallbackUrl := "";
     ParseInstructions := None; PollInterval := 0 |}.
End YandexUrlOpts.

Section Validity.
Context `{oxylabs.Pkg}.

(** Accepted parameters for yandex. *)
Definition YandexSearchAcceptedDomainParameters : list oxylabs.Domain :=
  [ oxylabs.DOMAIN_COM; oxylabs.DOMAIN_RU; oxylabs.DOMAIN_UA;
    oxylabs.DOMAIN_BY; oxylabs.DOMAIN_KZ; oxylabs.DOMAIN_TR ].

Definition YandexSearchAcceptedLocaleParameters : list oxylabs.Locale :=
  [ oxylabs.LOCALE_EN; oxylabs.LOCALE_RU; oxylabs.LOCALE_BY;
    oxylabs.LOCALE_DE; oxylabs.LOCALE_FR; oxylabs.LOCALE_ID;
    oxylabs.LOCALE_KK; oxylabs.LOCALE_TT; oxylabs.LOCALE_TR;
    oxylabs.LOCALE_UK ].

(** [checkParameterValidity] checks validity of ScrapeYandexSearch
    parameters. *)
Definition YandexSearchOpts_checkParameterValidity
    (opt : YandexSearchOpts.t) : option error :=
  if negb (internal.InList (YandexSearchOpts.Domain opt)
             YandexSearchAcceptedDomainParameters) then
    Some (Errorf "invalid domain parameter: " (YandexSearchOpts.Domain opt))
  else if negb (bool_decide (YandexSearchOpts.Locale opt = ""))
          && negb (internal.InList (YandexSearchOpts.Locale opt)
                     YandexSearchAcceptedLocaleParameters) then
    Some (Errorf "invalid locale parameter: " (YandexSearchOpts.Locale opt))
  else if negb (oxylabs.IsUserAgentValid (YandexSearchOpts.UserAgent opt)) then
    Some (Errorf "invalid user agent parameter: " (YandexSearchOpts.UserAgent opt))
  else if (YandexSearchOpts.Limit opt <=? 0)
          || (YandexSearchOpts.Pages opt <=? 0)
          || (YandexSearchOpts.StartPage opt <=? 0) then
    Some "limit, pages and start_page parameters must be greater than 0"
  else
    match YandexSearchOpts.ParseInstructions opt with
    | Some instructions =>
        match oxylabs.ValidateParseInstructions instructions with
        | Some err => Some (Errorf "invalid parse instructions: " err)
        | None => None
        end
    | None => None
    end.

(** [checkParameterValidity] checks validity of ScrapeYandexUrl
    parameters. *)
Definition YandexUrlOpts_checkParameterValidity
    (opt : YandexUrlOpts.t) : option error :=
  if negb (oxylabs.IsUserAgentValid (YandexUrlOpts.UserAgent opt)) then
    Some (Errorf "invalid user agent parameter: " (YandexUrlOpts.UserAgent opt))
  else if negb (bool_decide (YandexUrlOpts.Render opt = ""))
          && negb (oxylabs.IsRenderValid (YandexUrlOpts.Render opt)) then
    Some (Errorf "invalid render parameter: " (YandexUrlOpts.Render opt))
  else
    match YandexUrlOpts.ParseInstructions opt with
    | Some instructions =>
        match oxylabs.ValidateParseInstructions instructions with
        | Some err => Some (Errorf "invalid parse instructions: " err)
        | None => None
        end
    | None => None
    end.

End Validity.

(** [opt := &Opts{}; if len(opts) > 0 && opts[len(opts)-1] != nil
    { opt = opts[len(opts)-1] }] for a variadic list of pointers. *)
Definition prepare_options {Opts} (zero : Opts) (opts : list (option Opts)) : Opts :=
  if bool_decide (0 < length opts)%nat then
    match opts !! (length opts - 1)%nat with
    | Some (Some opt) => opt
    | _ => zero
    end
  else zero.

(** *** Channels, goroutines and the trace of an entry point *)

Section Runtime.
Context `{Types}.

(** A channel made by [make(chan T)]. *)
Definition chan := nat.

(** What travels on the three channels of an asynchronous call:
    [chan error], [chan *http.Response] and [chan *Resp]. *)
Inductive msg :=
| MErr (err : option error)
| MHttp (httpResp : HttpResponse)
| MResp (resp : Resp).

(** The two [go] statements of the package. *)
Inductive goroutine :=
| GoPollJobStatus (ctx : context.Context) (jobID : JobID) (pollInterval : Z)
    (httpRespChan errChan : chan)
| GoSend (respChan : chan) (resp : Resp).

(** What an entry point does that its environment can see, in order. *)
Inductive event :=
| EvMarshal (payload : gmap string json)
| EvReq (ctx : context.Context) (jsonPayload : string) (method : string)
| EvGetJobID (jsonPayload : string)
| EvGo (g : goroutine)
| EvRecv (c : chan) (m : msg)
| EvCancel (ctx : context.Context).

(** The sends a running goroutine still has to perform, in order.  A
    channel is unbuffered: a send waits for its receiver, and the next
    send is not attempted before. *)
Definition pending := list (chan * msg).

Record state := {
  next_chan : nat;
  goroutines : list pending;
}.

(** An entry point returns, or blocks for ever on a channel. *)
Inductive result (A : Type) :=
| Returns (a : A)
| Blocks.
Arguments Returns {A} a.
Arguments Blocks {A}.

(** Computations of the calling goroutine. *)
Definition M (A : Type) : Type := state → list event * state * result A.

#[export] Instance M_ret : MRet M := λ A a s, ([], s, Returns a).

#[export] Instance M_bind : MBind M := λ A B k m s,
  match m s with
  | (tr, s', Returns a) =>
      match k a s' with
      | (tr', s'', r) => (tr ++ tr', s'', r)
      end
  | (tr, s', Blocks) => (tr, s', Blocks)
  end.

Definition emit (e : event) : M unit := λ s, ([e], s, Returns tt).

Definition block {A} : M A := λ s, ([], s, Blocks).

(** [make(chan T)] *)
Definition make_chan : M chan := λ s,
  ([], {| next_chan := S (next_chan s); goroutines := goroutines s |},
   Returns (next_chan s)).

(** [go g], where [script] lists the sends of [g]. *)
Definition go (g : goroutine) (script : pending) : M unit := λ s,
  ([EvGo g],
   {| next_chan := next_chan s; goroutines := goroutines s ++ [script] |},
   Returns tt).

(** The first goroutine whose next send is on [c] hands its value over
    and goes on. *)
Fixpoint rendezvous (c : chan) (gs : list pending) : option (msg * list pending) :=
  match gs with
  | [] => None
  | g :: gs' =>
      match g with
      | (c', m) :: k =>
          if decide (c' = c) then Some (m, k :: gs')
          else (λ r, (r.1, g :: r.2)) <$> rendezvous c gs'
      | [] => (λ r, (r.1, g :: r.2)) <$> rendezvous c gs'
      end
  end.

(** [<-c] *)
Definition recv (c : chan) : M msg := λ s,
  match rendezvous c (goroutines s) with
  | Some (m, gs) =>
      ([EvRecv c m], {| next_chan := next_chan s; goroutines := gs |}, Returns m)
  | None => ([], s, Blocks)
  end.

(** [<-c] on a [chan error] and on a [chan *http.Response]. *)
Definition recv_error (c : chan) : M (option error) :=
  m ← recv c; match m with MErr err => mret err | _ => block end.

Definition recv_httpResp (c : chan) : M HttpResponse :=
  m ← recv c; match m with MHttp r => mret r | _ => block end.

(** The sends of [PollJobStatus] on the two channels it is given. *)
Inductive poller_send :=
| ToHttpRespChan (httpResp : HttpResponse)
| ToErrChan (err : option error).

Definition poller_script (httpRespChan errChan : chan)
    (sends : list poller_send) : pending :=
  (λ snd, match snd with
          | ToHttpRespChan r => (httpRespChan, MHttp r)
          | ToErrChan e => (errChan, MErr e)
          end) <$> sends.

(** The collaborators of the entry points: [json.Marshal], the methods
    [Req], [GetJobID] and [PollJobStatus] of the inner client [c.C], and
    [GetResp].  [PollJobStatus] runs as a goroutine; it is given by the
    sends it performs. *)
Class Client := {
  Marshal : gmap string json → string + error;
  Req : context.Context → string → string → HttpResponse + error;
  GetJobID : string → JobID + error;
  PollJobStatus : context.Context → JobID → Z → list poller_send;
  GetResp : HttpResponse → bool → bool → Resp + error;
}.

Definition json_Marshal `{Client} (payload : gmap string json) : M (string + error) :=
  emit (EvMarshal payload);; mret (Marshal payload).

Definition C_Req `{Client} (ctx : context.Context) (jsonPayload method : string)
    : M (HttpResponse + error) :=
  emit (EvReq ctx jsonPayload method);; mret (Req ctx jsonPayload method).

Definition C_GetJobID `{Client} (jsonPayload : string) : M (JobID + error) :=
  emit (EvGetJobID jsonPayload);; mret (GetJobID jsonPayload).

Definition go_C_PollJobStatus `{Client} (ctx : context.Context) (jobID : JobID)
    (pollInterval : Z) (httpRespChan errChan : chan) : M unit :=
  go (GoPollJobStatus ctx jobID pollInterval httpRespChan errChan)
     (poller_script httpRespChan errChan (PollJobStatus ctx jobID pollInterval)).

(** [go func() { respChan <- resp }()] *)
Definition go_send (respChan : chan) (resp : Resp) : M unit :=
  go (GoSend respChan resp) [(respChan, MResp resp)].

(** [ctx, cancel := context.WithTimeout(context.Background(), d);
    defer cancel(); return f(ctx)] *)
Definition with_default_timeout `{internal.Defaults} {A}
    (f : context.Context → M A) : M A :=
  let ctx := context.WithTimeout context.Background internal.DefaultTimeout in
  r ← f ctx;
  emit (EvCancel ctx);;
  mret r.

End Runtime.

Arguments Returns {A} a.
Arguments Blocks {A}.

(** *** The synchronous client ([yandex.go]) *)

Module SerpClient.
Section SerpClient.
Context `{Types, !oxylabs.Pkg, !internal.Defaults, !url.Parser, !Client}.

(** [ScrapeYandexSearchCtx] scrapes yandex via Oxylabs SERP API with
    yandex_search as source.  The provided context allows customization
    of the HTTP req, including setting timeouts. *)
Definition ScrapeYandexSearchCtx (ctx : context.Context) (query : string)
    (opts : list (option YandexSearchOpts.t)) : M (option Resp * option error) :=
  (* Prepare options. *)
  let opt := prepare_options YandexSearchOpts.zero opts in
  (* Set defaults. *)
  let opt :=
    {| YandexSearchOpts.Domain :=
         internal.SetDefaultDomain (YandexSearchOpts.Domain opt);
       YandexSearchOpts.StartPage :=
         internal.SetDefaultStartPage (YandexSearchOpts.StartPage opt);
       YandexSearchOpts.Limit :=
         internal.SetDefaultLimit (YandexSearchOpts.Limit opt)
           internal.DefaultLimit_SERP;
       YandexSearchOpts.Pages :=
         internal.SetDefaultPages (YandexSearchOpts.Pages opt);
       YandexSearchOpts.UserAgent :=
         internal.SetDefaultUserAgent (YandexSearchOpts.UserAgent opt);
       YandexSearchOpts.Locale := YandexSearchOpts.Locale opt;
       YandexSearchOpts.GeoLocation := YandexSearchOpts.GeoLocation opt;
       YandexSearchOpts.CallbackUrl := YandexSearchOpts.CallbackUrl opt;
       YandexSearchOpts.ParseInstructions := YandexSearchOpts.ParseInstructions opt;
       YandexSearchOpts.PollInterval := YandexSearchOpts.PollInterval opt |} in
  (* Check validity of parameters. *)
  match YandexSearchOpts_checkParameterValidity opt with
  | Some err => mret (None, Some err)
  | None =>
      (* Prepare payload. *)
      let payload : gmap string json :=
        <["source" := JStr oxylabs.YandexSearch]>
        (<["domain" := JStr (YandexSearchOpts.Domain opt)]>
        (<["query" := JStr query]>
        (<["start_page" := JNum (YandexSearchOpts.StartPage opt)]>
        (<["pages" := JNum (YandexSearchOpts.Pages opt)]>
        (<["limit" := JNum (YandexSearchOpts.Limit opt)]>
        (<["locale" := JStr (YandexSearchOpts.Locale opt)]>
        (<["geo_location" := JStr (YandexSearchOpts.GeoLocation opt)]>
        (<["user_agent_type" := JStr (YandexSearchOpts.UserAgent opt)]>
        (<["callback_url" := JStr (YandexSearchOpts.CallbackUrl opt)]> ∅))))))))) in
      (* Add custom parsing instructions to the payload if provided. *)
      let '(payload, customParserFlag) :=
        match YandexSearchOpts.ParseInstructions opt with
        | Some instructions =>
            (<["parsing_instructions" := JObj instructions]>
               (<["parse" := JBool true]> payload), true)
        | None => (payload, false)
        end in
      (* Marshal. *)
      r ← json_Marshal payload;
      match r with
      | inr err => mret (None, Some (Errorf "error marshalling payload: " err))
      | inl jsonPayload =>
          (* Req. *)
          r ← C_Req ctx jsonPayload "POST";
          match r with
          | inr err => mret (None, Some err)
          | inl httpResp =>
              (* Unmarshal the http Response and get the response. *)
              match GetResp httpResp customParserFlag customParserFlag with
              | inr err => mret (None, Some err)
              | inl resp => mret (Some resp, None)
              end
          end
      end
  end.

(** [ScrapeYandexSearch] scrapes yandex via Oxylabs SERP API with
    yandex_search as source. *)
Definition ScrapeYandexSearch (query : string)
    (opts : list (option YandexSearchOpts.t)) : M (option Resp * option error) :=
  with_default_timeout (λ ctx, ScrapeYandexSearchCtx ctx query opts).

(** [ScrapeYandexUrlCtx] scrapes a yandex url via Oxylabs SERP API with
    yandex as source.  The provided context allows customization of the
    HTTP req, including setting timeouts. *)
Definition ScrapeYandexUrlCtx (ctx : context.Context) (url : string)
    (opts : list (option YandexUrlOpts.t)) : M (option Resp * option error) :=
  (* Check validity of URL. *)
  match internal.ValidateUrl url "yandex" with
  | Some err => mret (None, Some err)
  | None =>
      (* Prepare options. *)
      let opt := prepare_options YandexUrlOpts.zero opts in
      (* Set defaults. *)
      let opt :=
        {| YandexUrlOpts.UserAgent :=
             internal.SetDefaultUserAgent (YandexUrlOpts.UserAgent opt);
           YandexUrlOpts.Render := YandexUrlOpts.Render opt;
           YandexUrlOpts.CallbackUrl := YandexUrlOpts.CallbackUrl opt;
           YandexUrlOpts.ParseInstructions := YandexUrlOpts.ParseInstructions opt;
           YandexUrlOpts.PollInterval := YandexUrlOpts.PollInterval opt |} in
      (* Check validity of parameters. *)
      match YandexUrlOpts_checkParameterValidity opt with
      | Some err => mret (None, Some err)
      | None =>
          (* Prepare payload. *)
          let payload : gmap string json :=
            <["source" := JStr oxylabs.YandexUrl]>
            (<["url" := JStr url]>
            (<["user_agent_type" := JStr (YandexUrlOpts.UserAgent opt)]>
            (<["render" := JStr (YandexUrlOpts.Render opt)]>
            (<["callback_url" := JStr (YandexUrlOpts.CallbackUrl opt)]> ∅)))) in
          (* Add custom parsing instructions to the payload if provided. *)
          let '(payload, customParserFlag) :=
            match YandexUrlOpts.ParseInstructions opt with
            | Some instructions =>
                (<["parsing_instructions" := JObj instructions]>
                   (<["parse" := JBool true]> payload), true)
            | None => (payload, false)
            end in
          (* Marshal. *)
          r ← json_Marshal payload;
          match r with
          | inr err => mret (None, Some (Errorf "error marshalling payload: " err))
          | inl jsonPayload =>
              (* Req. *)
              r ← C_Req ctx jsonPayload "POST";
              match r with
              | inr err => mret (None, Some err)
              | inl httpResp =>
                  (* Unmarshal the http Response and get the response. *)
                  match GetResp httpResp customParserFlag customParserFlag with
                  | inr err => mret (None, Some err)
                  | inl resp => mret (Some resp, None)
                  end
              end
          end
      end
  end.

(** [ScrapeYandexUrl] scrapes a yandex url via Oxylabs SERP API with
    yandex as source. *)
Definition ScrapeYandexUrl (url : string)
    (opts : list (option YandexUrlOpts.t)) : M (option Resp * option error) :=
  with_default_timeout (λ ctx, ScrapeYandexUrlCtx ctx url opts).

End SerpClient.
End SerpClient.

(** *** The asynchronous client ([yandex_async.go]) *)

Module SerpClientAsync.
Section SerpClientAsync.
Context `{Types, !oxylabs.Pkg, !internal.Defaults, !url.Parser, !Client}.

(** [ScrapeYandexSearchCtx] scrapes yandex with async polling runtime via
    Oxylabs SERP API and yandex_search as source.  The provided context
    allows customization of the HTTP req, including setting timeouts. *)
Definition ScrapeYandexSearchCtx (ctx : context.Context) (query : string)
    (opts : list (option YandexSearchOpts.t)) : M (option chan * option error) :=
  httpRespChan ← make_chan;
  respChan ← make_chan;
  errChan ← make_chan;
  (* Prepare options. *)
  let opt := prepare_options YandexSearchOpts.zero opts in
  (* Set defaults. *)
  let opt :=
    {| YandexSearchOpts.Domain :=
         internal.SetDefaultDomain (YandexSearchOpts.Domain opt);
       YandexSearchOpts.StartPage :=
         internal.SetDefaultStartPage (YandexSearchOpts.StartPage opt);
       YandexSearchOpts.Limit :=
         internal.SetDefaultLimit (YandexSearchOpts.Limit opt)
           internal.DefaultLimit_SERP;
       YandexSearchOpts.Pages :=
         internal.SetDefaultPages (YandexSearchOpts.Pages opt);
       YandexSearchOpts.UserAgent :=
         internal.SetDefaultUserAgent (YandexSearchOpts.UserAgent opt);
       YandexSearchOpts.Locale := YandexSearchOpts.Locale opt;
       YandexSearchOpts.GeoLocation := YandexSearchOpts.GeoLocation opt;
       YandexSearchOpts.CallbackUrl := YandexSearchOpts.CallbackUrl opt;
       YandexSearchOpts.ParseInstructions := YandexSearchOpts.ParseInstructions opt;
       YandexSearchOpts.PollInterval := YandexSearchOpts.PollInterval opt |} in
  (* Check the validity of the parameters. *)
  match YandexSearchOpts_checkParameterValidity opt with
  | Some err => mret (None, Some err)
  | None =>
      (* Prepare the payload. *)
      let payload : gmap string json :=
        <["source" := JStr oxylabs.YandexSearch]>
        (<["domain" := JStr (YandexSearchOpts.Domain opt)]>
        (<["query" := JStr query]>
        (<["start_page" := JNum (YandexSearchOpts.StartPage opt)]>
        (<["pages" := JNum (YandexSearchOpts.Pages opt)]>
        (<["limit" := JNum (YandexSearchOpts.Limit opt)]>
        (<["locale" := JStr (YandexSearchOpts.Locale opt)]>
        (<["geo_location" := JStr (YandexSearchOpts.GeoLocation opt)]>
        (<["user_agent_type" := JStr (YandexSearchOpts.UserAgent opt)]>
        (<["callback_url" := JStr (YandexSearchOpts.CallbackUrl opt)]> ∅))))))))) in
      (* Add custom parsing instructions to the payload if provided. *)
      let '(payload, customParserFlag) :=
        match YandexSearchOpts.ParseInstructions opt with
        | Some instructions =>
            (<["parsing_instructions" := JObj instructions]> payload, true)
        | None => (payload, false)
        end in
      (* Marshal. *)
      r ← json_Marshal payload;
      match r with
      | inr err =>
          let payload := <["parse" := JBool true]> payload in
          mret (None, Some (Errorf "error marshalling payload: " err))
      | inl jsonPayload =>
          (* Get the job ID. *)
          r ← C_GetJobID jsonPayload;
          match r with
          | inr err => mret (None, Some err)
          | inl jobID =>
              (* Poll job status. *)
              go_C_PollJobStatus ctx jobID (YandexSearchOpts.PollInterval opt)
                httpRespChan errChan;;
              (* Handle error. *)
              err ← recv_error errChan;
              match err with
              | Some err => mret (None, Some err)
              | None =>
                  (* Unmarshal the http Response and get the response. *)
                  httpResp ← recv_httpResp httpRespChan;
                  match GetResp httpResp customParserFlag customParserFlag with
                  | inr err => mret (None, Some err)
                  | inl resp =>
                      (* Retrieve internal resp and forward it to the
                         resp channel. *)
                      go_send respChan resp;;
                      mret (Some respChan, None)
                  end
              end
          end
      end
  end.

(** [ScrapeYandexSearch] scrapes yandex with async polling runtime via
    Oxylabs SERP API and yandex_search as source. *)
Definition ScrapeYandexSearch (query : string)
    (opts : list (option YandexSearchOpts.t)) : M (option chan * option error) :=
  with_default_timeout (λ ctx, ScrapeYandexSearchCtx ctx query opts).

(** [ScrapeYandexUrlCtx] scrapes yandex with async polling runtime via
    Oxylabs SERP API and yandex as source.  The provided context allows
    customization of the HTTP req, including setting timeouts. *)
Definition ScrapeYandexUrlCtx (ctx : context.Context) (url : string)
    (opts : list (option YandexUrlOpts.t)) : M (option chan * option error) :=
  httpRespChan ← make_chan;
  respChan ← make_chan;
  errChan ← make_chan;
  (* Check the validity of the URL. *)
  match internal.ValidateUrl url "yandex" with
  | Some err => mret (None, Some err)
  | None =>
      (* Prepare options. *)
      let opt := prepare_options YandexUrlOpts.zero opts in
      (* Set defaults. *)
      let opt :=
        {| YandexUrlOpts.UserAgent :=
             internal.SetDefaultUserAgent (YandexUrlOpts.UserAgent opt);
           YandexUrlOpts.Render := YandexUrlOpts.Render opt;
           YandexUrlOpts.CallbackUrl := YandexUrlOpts.CallbackUrl opt;
           YandexUrlOpts.ParseInstructions := YandexUrlOpts.ParseInstructions opt;
           YandexUrlOpts.PollInterval := YandexUrlOpts.PollInterval opt |} in
      (* Check the validity of parameters. *)
      match YandexUrlOpts_checkParameterValidity opt with
      | Some err => mret (None, Some err)
      | None =>
          (* Prepare the payload. *)
          let payload : gmap string json :=
            <["source" := JStr oxylabs.YandexUrl]>
            (<["url" := JStr url]>
            (<["user_agent_type" := JStr (YandexUrlOpts.UserAgent opt)]>
            (<["render" := JStr (YandexUrlOpts.Render opt)]>
            (<["callback_url" := JStr (YandexUrlOpts.CallbackUrl opt)]> ∅)))) in
          (* Add custom parsing instructions to the payload if provided. *)
          let '(payload, customParserFlag) :=
            match YandexUrlOpts.ParseInstructions opt with
            | Some instructions =>
                (<["parsing_instructions" := JObj instructions]>
                   (<["parse" := JBool true]> payload), true)
            | None => (payload, false)
            end in
          (* Marshal. *)
          r ← json_Marshal payload;
          match r with
          | inr err => mret (None, Some (Errorf "error marshalling payload: " err))
          | inl jsonPayload =>
              (* Get the job ID. *)
              r ← C_GetJobID jsonPayload;
              match r with
              | inr err => mret (None, Some err)
              | inl jobID =>
                  (* Poll job status. *)
                  go_C_PollJobStatus ctx jobID (YandexUrlOpts.PollInterval opt)
                    httpRespChan errChan;;
                  (* Handle error. *)
                  err ← recv_error errChan;
                  match err with
                  | Some err => mret (None, Some err)
                  | None =>
                      (* Unmarshal the http Response and get the response. *)
                      httpResp ← recv_httpResp httpRespChan;
                      match GetResp httpResp customParserFlag customParserFlag with
                      | inr err => mret (None, Some err)
                      | inl resp =>
                          (* Retrieve internal resp and forward it to the
                             resp channel. *)
                          go_send respChan resp;;
                          mret (Some respChan, None)
                      end
                  end
              end
          end
      end
  end.

(** [ScrapeYandexUrl] scrapes yandex with async polling runtime via
    Oxylabs SERP API and yandex as source. *)
Definition ScrapeYandexUrl (url : string)
    (opts : list (option YandexUrlOpts.t)) : M (option chan * option error) :=
  with_default_timeout (λ ctx, ScrapeYandexUrlCtx ctx url opts).

End SerpClientAsync.
End SerpClientAsync.

End serp.

(** ** A stub service

    Concrete collaborators, on which the entry points can be run: the
    values of the constants are those of the Oxylabs API, the parser
    knows three addresses, and the client answers from a script. *)

Module stub.

Definition types : serp.Types :=
  {| serp.HttpResponse := string; serp.Resp := string; serp.JobID := string |}.

Definition pkg : oxylabs.Pkg :=
  {| oxylabs.DOMAIN_COM := "com"; oxylabs.DOMAIN_RU := "ru";
     oxylabs.DOMAIN_UA := "ua"; oxylabs.DOMAIN_BY := "by";
     oxylabs.DOMAIN_KZ := "kz"; oxylabs.DOMAIN_TR := "tr";
     oxylabs.LOCALE_EN := "en"; oxylabs.LOCALE_RU := "ru";
     oxylabs.LOCALE_BY := "by"; oxylabs.LOCALE_DE := "de";
     oxylabs.LOCALE_FR := "fr"; oxylabs.LOCALE_ID := "id";
     oxylabs.LOCALE_KK := "kk"; oxylabs.LOCALE_TT := "tt";
     oxylabs.LOCALE_TR := "tr"; oxylabs.LOCALE_UK := "uk";
     oxylabs.YandexSearch := "yandex_search";
     oxylabs.YandexUrl := "yandex";
     oxylabs.IsUserAgentValid ua :=
       internal.InList ua ["desktop"; "mobile"; "tablet"];
     oxylabs.IsRenderValid r := internal.InList r ["html"; "png"];
     oxylabs.ValidateParseInstructions m :=
       if decide (size m = 0%nat) then Some "parsing instructions are empty"
       else None |}.

Definition defaults : internal.Defaults :=
  {| internal.DefaultTimeout := 50000000000;
     internal.DefaultLimit_SERP := 10;
     internal.SetDefaultDomain d := if decide (d = "") then "com" else d;
     internal.SetDefaultStartPage n := if decide (n = 0) then 1 else n;
     internal.SetDefaultLimit n d := if decide (n = 0) then d else n;
     internal.SetDefaultPages n := if decide (n = 0) then 1 else n;
     internal.SetDefaultUserAgent ua := if decide (ua = "") then "desktop" else ua |}.

Definition parser : url.Parser :=
  {| url.ParseRequestURI rawURL :=
       if decide (rawURL = "https://yandex.com/search/?text=adidas") then
         inl {| url.Scheme := "https"; url.Host := "yandex.com";
                url.Path := "/search/" |}
       else if decide (rawURL = "https://notyandex.example.com/") then
         inl {| url.Scheme := "https"; url.Host := "notyandex.example.com";
                url.Path := "/" |}
       else if decide (rawURL = "https://www.google.com/") then
         inl {| url.Scheme := "https"; url.Host := "www.google.com";
                url.Path := "/" |}
       else inr ("parse " +:+ rawURL +:+ ": invalid URI for request") |}.

(** A client whose job-creation endpoint answers [submit] and whose
    poller performs the sends [poll ctx]. *)
Definition client (submit : string + error)
    (poll : context.Context → list (@serp.poller_send types)) : @serp.Client types :=
  @serp.Build_Client types
    (* Marshal *) (λ payload, inl "{...}")
    (* Req *) (λ ctx jsonPayload method, inl "200 OK")
    (* GetJobID *) (λ jsonPayload, submit)
    (* PollJobStatus *) (λ ctx jobID pollInterval, poll ctx)
    (* GetResp *) (λ httpResp parse custom, inl httpResp).

(** A poller that follows the handshake: the context's error if it is
    done, and otherwise [nil] on the error channel followed by the
    response. *)
Definition poll_done (ctx : context.Context) : list (@serp.poller_send types) :=
  match context.Err ctx with
  | Some err => [@serp.ToErrChan types (Some err)]
  | None => [@serp.ToErrChan types None; @serp.ToHttpRespChan types "200 OK"]
  end.

(** The state of a program that has made no channel and started no
    goroutine. *)
Definition init : @serp.state types :=
  {| serp.next_chan := 0; serp.goroutines := [] |}.

End stub.

(** Clients with a fault, or with a poller of their own. *)
Module faulty.

(** A client whose [json.Marshal] fails. *)
Definition marshal_fails : @serp.Client stub.types :=
  @serp.Build_Client stub.types
    (* Marshal *) (λ payload, inr "json: unsupported value")
    (* Req *) (λ ctx jsonPayload method, inl "200 OK")
    (* GetJobID *) (λ jsonPayload, inl "job-1")
    (* PollJobStatus *) (λ ctx jobID pollInterval, [])
    (* GetResp *) (λ httpResp parse custom, inl httpResp).

(** A client whose poller sends nothing. *)
Definition silent : @serp.Client stub.types := stub.client (inl "job-1") (λ ctx, []).

(** A client whose poller does not look at the context: the job is done
    at the first poll, whatever the context. *)
Definition ignores_context : @serp.Client stub.types :=
  stub.client (inl "job-1")
    (λ ctx, [@serp.ToErrChan stub.types None;
             @serp.ToHttpRespChan stub.types "200 OK"]).

End faulty.

(** * Properties of the entry points

    ** Vocabulary

    The calls of the asynchronous entry points, their runs, and what is
    observed of a run: its trace, the goroutines it leaves, the sends
    that are pending on a channel. *)

Import serp.

Section Vocabulary.
Context {Ty : Types} {Ox : oxylabs.Pkg} {In : internal.Defaults}
  {Ur : url.Parser} {Cl : Client}.

(** The calls of the asynchronous entry points. *)
Inductive async_entry :=
| SearchCtx (ctx : context.Context) (query : string)
    (opts : list (option YandexSearchOpts.t))
| Search (query : string) (opts : list (option YandexSearchOpts.t))
| UrlCtx (ctx : context.Context) (url : string)
    (opts : list (option YandexUrlOpts.t))
| Url (url : string) (opts : list (option YandexUrlOpts.t)).

(** What a call runs. *)
Definition call (e : async_entry) : M (option chan * option error) :=
  match e with
  | SearchCtx ctx query opts => SerpClientAsync.ScrapeYandexSearchCtx ctx query opts
  | Search query opts => SerpClientAsync.ScrapeYandexSearch query opts
  | UrlCtx ctx url opts => SerpClientAsync.ScrapeYandexUrlCtx ctx url opts
  | Url url opts => SerpClientAsync.ScrapeYandexUrl url opts
  end.

(** [context.WithTimeout(context.Background(), internal.DefaultTimeout)],
    the context that the entry points without a context build. *)
Definition default_ctx : context.Context :=
  context.WithTimeout context.Background internal.DefaultTimeout.

(** The context under which the body of a call runs. *)
Definition call_ctx (e : async_entry) : context.Context :=
  match e with
  | SearchCtx ctx _ _ | UrlCtx ctx _ _ => ctx
  | Search _ _ | Url _ _ => default_ctx
  end.

(** The events of a deferred [cancel()], run when the call returns. *)
Definition deferred {A} (e : async_entry) (r : result A) : list event :=
  match e, r with
  | (Search _ _ | Url _ _), Returns _ => [EvCancel default_ctx]
  | _, _ => []
  end.

(** The state after the three [make(chan ...)] of an entry point. *)
Definition made3 (s : state) : state :=
  {| next_chan := S (S (S (next_chan s))); goroutines := goroutines s |}.

(** What both entry points do once the job is submitted. *)
Definition handshake (ctx : context.Context) (jobID : JobID) (pollInterval : Z)
    (customParserFlag : bool) (httpRespChan respChan errChan : chan)
    : M (option chan * option error) :=
  go_C_PollJobStatus ctx jobID pollInterval httpRespChan errChan;;
  err ← recv_error errChan;
  match err with
  | Some err => mret (None, Some err)
  | None =>
      httpResp ← recv_httpResp httpRespChan;
      match GetResp httpResp customParserFlag customParserFlag with
      | inr err => mret (None, Some err)
      | inl resp => go_send respChan resp;; mret (Some respChan, None)
      end
  end.

(** The runs of the body of an asynchronous entry point from [s]. *)
Inductive async_run (ctx : context.Context) (s : state)
  : list event → state → result (option chan * option error) → Prop :=
| run_invalid err :
    async_run ctx s [] (made3 s) (Returns (None, Some err))
| run_marshal_error payload err :
    Marshal payload = inr err →
    async_run ctx s [EvMarshal payload] (made3 s)
      (Returns (None, Some (Errorf "error marshalling payload: " err)))
| run_submit_error payload jsonPayload err :
    Marshal payload = inl jsonPayload →
    GetJobID jsonPayload = inr err →
    async_run ctx s [EvMarshal payload; EvGetJobID jsonPayload] (made3 s)
      (Returns (None, Some err))
| run_submitted payload jsonPayload jobID pollInterval flag tr s' r :
    Marshal payload = inl jsonPayload →
    GetJobID jsonPayload = inl jobID →
    handshake ctx jobID pollInterval flag
      (next_chan s) (S (next_chan s)) (S (S (next_chan s))) (made3 s) = (tr, s', r) →
    async_run ctx s (EvMarshal payload :: EvGetJobID jsonPayload :: tr) s' r.

(** Every send that a goroutine of [s] still has to perform is on a
    channel that exists. *)
Definition fresh_state (s : state) : Prop :=
  ∀ g c m, g ∈ goroutines s → (c, m) ∈ g → (c < next_chan s)%nat.

(** The events of a handshake, and what it leaves, by the sends of the
    poller; [gs] are the goroutines that were already there. *)
Inductive handshaken (gs : list pending) (flag : bool) (h rc ec : chan)
  : list poller_send → list event → list pending
    → result (option chan * option error) → Prop :=
| hs_silent sends :
    (∀ err k, sends ≠ ToErrChan err :: k) →
    handshaken gs flag h rc ec sends
      [] (gs ++ [poller_script h ec sends]) Blocks
| hs_error err k :
    handshaken gs flag h rc ec (ToErrChan (Some err) :: k)
      [EvRecv ec (MErr (Some err))]
      (gs ++ [poller_script h ec k]) (Returns (None, Some err))
| hs_no_response k :
    (∀ r k', k ≠ ToHttpRespChan r :: k') →
    handshaken gs flag h rc ec (ToErrChan None :: k)
      [EvRecv ec (MErr None)]
      (gs ++ [poller_script h ec k]) Blocks
| hs_bad_response r k err :
    GetResp r flag flag = inr err →
    handshaken gs flag h rc ec (ToErrChan None :: ToHttpRespChan r :: k)
      [EvRecv ec (MErr None); EvRecv h (MHttp r)]
      (gs ++ [poller_script h ec k]) (Returns (None, Some err))
| hs_delivered r k resp :
    GetResp r flag flag = inl resp →
    handshaken gs flag h rc ec (ToErrChan None :: ToHttpRespChan r :: k)
      [EvRecv ec (MErr None); EvRecv h (MHttp r); EvGo (GoSend rc resp)]
      ((gs ++ [poller_script h ec k]) ++ [[(rc, MResp resp)]])
      (Returns (Some rc, None)).

(** The events of a handshake after its first [go]: receives, and the
    start of the goroutine that sends on [rc]. *)
Inductive handshake_event (rc : chan) : event → Prop :=
| he_recv c m : handshake_event rc (EvRecv c m)
| he_send resp : handshake_event rc (EvGo (GoSend rc resp)).

(** The values that goroutines are waiting to send on [c]. *)
Definition pending_on (c : chan) (gs : list pending) : list msg :=
  snd <$> filter (λ cm, cm.1 = c) (concat gs).

(** The same, in a state. *)
Definition sends_on (c : chan) (s : state) : list msg :=
  pending_on c (goroutines s).
(** The sends of a poller that keeps to the handshake: an error on the
    error channel, or [nil] on the error channel and then the response. *)
Definition follows_handshake (sends : list poller_send) : Prop :=
  (∃ err k, sends = ToErrChan (Some err) :: k)
  ∨ (∃ httpResp k, sends = ToErrChan None :: ToHttpRespChan httpResp :: k).

(** The payloads handed to [GetJobID], in order. *)
Definition submitted (tr : list event) : list string :=
  omap (λ ev, match ev with
              | EvGetJobID jsonPayload => Some jsonPayload
              | _ => None
              end) tr.

(** The claim C4 as it is stated: when the context of a call is
    already done, a submission that the call attempts is aborted, and
    the call returns its error. *)
Definition submission_honors_context : Prop :=
  ∀ e s tr s' r jsonPayload,
    call e s = (tr, s', r) →
    context.Err (call_ctx e) ≠ None →
    EvGetJobID jsonPayload ∈ tr →
    ∃ err, GetJobID jsonPayload = inr err ∧ r = Returns (None, Some err).

(** The runs of the body of a synchronous entry point from [s]. *)
Inductive sync_run (ctx : context.Context) (s : state)
  : list event → state → result (option Resp * option error) → Prop :=
| sync_invalid err :
    sync_run ctx s [] s (Returns (None, Some err))
| sync_marshal_error payload err :
    Marshal payload = inr err →
    sync_run ctx s [EvMarshal payload] s
      (Returns (None, Some (Errorf "error marshalling payload: " err)))
| sync_req_error payload jsonPayload err :
    Marshal payload = inl jsonPayload →
    Req ctx jsonPayload "POST" = inr err →
    sync_run ctx s [EvMarshal payload; EvReq ctx jsonPayload "POST"] s
      (Returns (None, Some err))
| sync_resp_error payload jsonPayload httpResp flag err :
    Marshal payload = inl jsonPayload →
    Req ctx jsonPayload "POST" = inl httpResp →
    GetResp httpResp flag flag = inr err →
    sync_run ctx s [EvMarshal payload; EvReq ctx jsonPayload "POST"] s
      (Returns (None, Some err))
| sync_resp payload jsonPayload httpResp flag resp :
    Marshal payload = inl jsonPayload →
    Req ctx jsonPayload "POST" = inl httpResp →
    GetResp httpResp flag flag = inl resp →
    sync_run ctx s [EvMarshal payload; EvReq ctx jsonPayload "POST"] s
      (Returns (Some resp, None)).

(** The contexts that a run hands to the transport and to the poller. *)
Definition contexts (tr : list event) : list context.Context :=
  omap (λ ev, match ev with
              | EvReq ctx _ _ => Some ctx
              | EvGo (GoPollJobStatus ctx _ _ _ _) => Some ctx
              | _ => None
              end) tr.

(** [m] runs [f] under the default timeout, and cancels the context
    when [f] returns. *)
Definition under_default_timeout {A} (f : context.Context → M A) (m : M A) : Prop :=
  ∀ s, m s = match f default_ctx s with
             | (tr, s', Returns a) => (tr ++ [EvCancel default_ctx], s', Returns a)
             | (tr, s', Blocks) => (tr, s', Blocks)
             end.

(** The options of a call once its defaults are set. *)
Definition search_options (opts : list (option YandexSearchOpts.t))
    : YandexSearchOpts.t :=
  let opt := prepare_options YandexSearchOpts.zero opts in
  {| YandexSearchOpts.Domain :=
       internal.SetDefaultDomain (YandexSearchOpts.Domain opt);
     YandexSearchOpts.StartPage :=
       internal.SetDefaultStartPage (YandexSearchOpts.StartPage opt);
     YandexSearchOpts.Limit :=
       internal.SetDefaultLimit (YandexSearchOpts.Limit opt)
         internal.DefaultLimit_SERP;
     YandexSearchOpts.Pages :=
       internal.SetDefaultPages (YandexSearchOpts.Pages opt);
     YandexSearchOpts.UserAgent :=
       internal.SetDefaultUserAgent (YandexSearchOpts.UserAgent opt);
     YandexSearchOpts.Locale := YandexSearchOpts.Locale opt;
     YandexSearchOpts.GeoLocation := YandexSearchOpts.GeoLocation opt;
     YandexSearchOpts.CallbackUrl := YandexSearchOpts.CallbackUrl opt;
     YandexSearchOpts.ParseInstructions := YandexSearchOpts.ParseInstructions opt;
     YandexSearchOpts.PollInterval := YandexSearchOpts.PollInterval opt |}.

Definition url_options (opts : list (option YandexUrlOpts.t)) : YandexUrlOpts.t :=
  let opt := prepare_options YandexUrlOpts.zero opts in
  {| YandexUrlOpts.UserAgent :=
       internal.SetDefaultUserAgent (YandexUrlOpts.UserAgent opt);
     YandexUrlOpts.Render := YandexUrlOpts.Render opt;
     YandexUrlOpts.CallbackUrl := YandexUrlOpts.CallbackUrl opt;
     YandexUrlOpts.ParseInstructions := YandexUrlOpts.ParseInstructions opt;
     YandexUrlOpts.PollInterval := YandexUrlOpts.PollInterval opt |}.

(** The error with which the validation of a search, and of a URL
    request, refuses its input. *)
Definition search_refused (opts : list (option YandexSearchOpts.t)) : option error :=
  YandexSearchOpts_checkParameterValidity (search_options opts).

Definition url_refused (url : string) (opts : list (option YandexUrlOpts.t))
    : option error :=
  match internal.ValidateUrl url "yandex" with
  | Some err => Some err
  | None => YandexUrlOpts_checkParameterValidity (url_options opts)
  end.

(** [F] looks at the last element of its list of options only, and
    takes the zero value if there is none or if it is [nil]. *)
Definition last_only {Opts A} (zero : Opts) (F : list (option Opts) → A) : Prop :=
  (∀ opts opts', last opts = last opts' → F opts = F opts')
  ∧ (∀ opts, opts = [] ∨ last opts = Some None → F opts = F [Some zero]).

(** *** Further vocabulary *)

(** The same calls, on the synchronous client. *)
Definition sync_call (e : async_entry) : M (option Resp * option error) :=
  match e with
  | SearchCtx ctx query opts => SerpClient.ScrapeYandexSearchCtx ctx query opts
  | Search query opts => SerpClient.ScrapeYandexSearch query opts
  | UrlCtx ctx url opts => SerpClient.ScrapeYandexUrlCtx ctx url opts
  | Url url opts => SerpClient.ScrapeYandexUrl url opts
  end.

(** The payloads handed to [json.Marshal], in order. *)
Definition marshalled (tr : list event) : list (gmap string json) :=
  omap (λ ev, match ev with
              | EvMarshal payload => Some payload
              | _ => None
              end) tr.

(** The requests handed to the transport [Req], in order. *)
Definition requests (tr : list event) : list (context.Context * string * string) :=
  omap (λ ev, match ev with
              | EvReq ctx jsonPayload method => Some (ctx, jsonPayload, method)
              | _ => None
              end) tr.

(** The parsing instructions and the poll interval of the options that
    a call uses. *)
Definition call_instructions (e : async_entry) : option (gmap string json) :=
  match e with
  | SearchCtx _ _ opts | Search _ opts =>
      YandexSearchOpts.ParseInstructions (prepare_options YandexSearchOpts.zero opts)
  | UrlCtx _ _ opts | Url _ opts =>
      YandexUrlOpts.ParseInstructions (prepare_options YandexUrlOpts.zero opts)
  end.

Definition call_poll_interval (e : async_entry) : Z :=
  match e with
  | SearchCtx _ _ opts | Search _ opts =>
      YandexSearchOpts.PollInterval (prepare_options YandexSearchOpts.zero opts)
  | UrlCtx _ _ opts | Url _ opts =>
      YandexUrlOpts.PollInterval (prepare_options YandexUrlOpts.zero opts)
  end.

(** [customParserFlag]: whether the options hold parsing instructions. *)
Definition custom_parser (e : async_entry) : bool :=
  match call_instructions e with Some _ => true | None => false end.

(** The error with which the validation refuses the input of a call. *)
Definition call_refused (e : async_entry) : option error :=
  match e with
  | SearchCtx _ _ opts | Search _ opts => search_refused opts
  | UrlCtx _ url opts | Url url opts => url_refused url opts
  end.

(** *** The options that a run works with *)

(** The element of a variadic list of options that a call is to use:
    the last one, and the zero value if there is none or if the last one
    is [nil]. *)
Definition last_or_zero {Opts} (zero : Opts) (opts : list (option Opts)) : Opts :=
  match last opts with
  | Some (Some opt) => opt
  | _ => zero
  end.

(** The defaults that the entry points set in the options [opt]. *)
Definition search_defaults (opt : YandexSearchOpts.t) : YandexSearchOpts.t :=
  {| YandexSearchOpts.Domain :=
       internal.SetDefaultDomain (YandexSearchOpts.Domain opt);
     YandexSearchOpts.StartPage :=
       internal.SetDefaultStartPage (YandexSearchOpts.StartPage opt);
     YandexSearchOpts.Limit :=
       internal.SetDefaultLimit (YandexSearchOpts.Limit opt)
         internal.DefaultLimit_SERP;
     YandexSearchOpts.Pages :=
       internal.SetDefaultPages (YandexSearchOpts.Pages opt);
     YandexSearchOpts.UserAgent :=
       internal.SetDefaultUserAgent (YandexSearchOpts.UserAgent opt);
     YandexSearchOpts.Locale := YandexSearchOpts.Locale opt;
     YandexSearchOpts.GeoLocation := YandexSearchOpts.GeoLocation opt;
     YandexSearchOpts.CallbackUrl := YandexSearchOpts.CallbackUrl opt;
     YandexSearchOpts.ParseInstructions := YandexSearchOpts.ParseInstructions opt;
     YandexSearchOpts.PollInterval := YandexSearchOpts.PollInterval opt |}.

Definition url_defaults (opt : YandexUrlOpts.t) : YandexUrlOpts.t :=
  {| YandexUrlOpts.UserAgent :=
       internal.SetDefaultUserAgent (YandexUrlOpts.UserAgent opt);
     YandexUrlOpts.Render := YandexUrlOpts.Render opt;
     YandexUrlOpts.CallbackUrl := YandexUrlOpts.CallbackUrl opt;
     YandexUrlOpts.ParseInstructions := YandexUrlOpts.ParseInstructions opt;
     YandexUrlOpts.PollInterval := YandexUrlOpts.PollInterval opt |}.

(** The keys of a payload whose values are taken from the options, with
    the value that the options [opt] give each; no value stands for a
    key that the payload does not hold. *)
Definition search_fields (opt : YandexSearchOpts.t) : list (string * option json) :=
  [("domain", Some (JStr (YandexSearchOpts.Domain opt)));
   ("start_page", Some (JNum (YandexSearchOpts.StartPage opt)));
   ("pages", Some (JNum (YandexSearchOpts.Pages opt)));
   ("limit", Some (JNum (YandexSearchOpts.Limit opt)));
   ("locale", Some (JStr (YandexSearchOpts.Locale opt)));
   ("geo_location", Some (JStr (YandexSearchOpts.GeoLocation opt)));
   ("user_agent_type", Some (JStr (YandexSearchOpts.UserAgent opt)));
   ("callback_url", Some (JStr (YandexSearchOpts.CallbackUrl opt)));
   ("parsing_instructions", JObj <$> YandexSearchOpts.ParseInstructions opt)].

Definition url_fields (opt : YandexUrlOpts.t) : list (string * option json) :=
  [("user_agent_type", Some (JStr (YandexUrlOpts.UserAgent opt)));
   ("render", Some (JStr (YandexUrlOpts.Render opt)));
   ("callback_url", Some (JStr (YandexUrlOpts.CallbackUrl opt)));
   ("parsing_instructions", JObj <$> YandexUrlOpts.ParseInstructions opt)].

(** What is seen of the options in a run: the run [run] works with the
    options [opt], once their defaults are set ([opt'], with the poll
    interval [pollInterval]), when it returns the error of their
    validation if they are not valid, and otherwise marshals one payload
    that holds their fields [fields], and starts no poller but with
    their poll interval. *)
Definition run_with {X} (refused : option error)
    (fields : list (string * option json)) (pollInterval : Z)
    (run : list event * state * result (option X * option error)) : Prop :=
  match refused with
  | Some err => run.2 = Returns (None, Some err)
  | None =>
      (∃ payload,
         marshalled run.1.1 = [payload]
         ∧ ∀ key value, (key, value) ∈ fields → payload !! key = value)
      ∧ ∀ ctx jobID i httpRespChan errChan,
          EvGo (GoPollJobStatus ctx jobID i httpRespChan errChan) ∈ run.1.1 →
          i = pollInterval
  end.

Definition search_run_with {X} (opt : YandexSearchOpts.t)
    (run : list event * state * result (option X * option error)) : Prop :=
  run_with (YandexSearchOpts_checkParameterValidity (search_defaults opt))
    (search_fields (search_defaults opt)) (YandexSearchOpts.PollInterval opt) run.

(** For a URL the options are looked at once the URL has passed
    [ValidateUrl]. *)
Definition url_run_with {X} (url : string) (opt : YandexUrlOpts.t)
    (run : list event * state * result (option X * option error)) : Prop :=
  internal.ValidateUrl url "yandex" = None →
  run_with (YandexUrlOpts_checkParameterValidity (url_defaults opt))
    (url_fields (url_defaults opt)) (YandexUrlOpts.PollInterval opt) run.

End Vocabulary.

(** ** Substrings and [ValidateUrl] *)

Section Strings.

Lemma append_cons c s t : String c s +:+ t = String c (s +:+ t).
Proof. reflexivity. Qed.

Lemma append_empty t : "" +:+ t = t.
Proof. reflexivity. Qed.

Lemma HasPrefix_spec s p :
  strings.HasPrefix s p = true ↔ ∃ b, s = p +:+ b.
Proof.
  revert s. induction p as [|a p IH]; intros s; simpl.
  - split; [intros _; exists s; reflexivity | reflexivity].
  - destruct s as [|c s].
    + split; [discriminate | intros [b Hb]; discriminate].
    + setoid_rewrite append_cons.
      destruct (Ascii.eqb_spec a c) as [->|Hne].
      * rewrite IH. split; intros [b Hb]; exists b; congruence.
      * split; [discriminate | intros [b Hb]; congruence].
Qed.

Lemma Index_bound s sub : -1 ≤ strings.Index s sub.
Proof.
  induction s as [|c s IH]; simpl.
  - destruct (strings.HasPrefix "" sub); lia.
  - destruct (strings.HasPrefix (String c s) sub); [lia|].
    destruct (Z.ltb_spec (strings.Index s sub) 0); lia.
Qed.

Lemma Contains_spec s sub :
  strings.Contains s sub = true ↔ ∃ a b, s = a +:+ sub +:+ b.
Proof.
  unfold strings.Contains. rewrite Z.leb_le.
  induction s as [|c s IH]; cbn [strings.Index];
    destruct (strings.HasPrefix _ sub) eqn:Hp.
  - apply HasPrefix_spec in Hp as [b Hb]. split; [|lia].
    intros _. by exists "", b.
  - split; [lia|]. intros (a & b & Hab). destruct a; [|discriminate].
    rewrite append_empty in Hab.
    assert (strings.HasPrefix "" sub = true) as Hq
      by (apply HasPrefix_spec; eauto).
    congruence.
  - apply HasPrefix_spec in Hp as [b Hb]. split; [|lia].
    intros _. by exists "", b.
  - pose proof (Index_bound s sub) as Hlo.
    destruct (Z.ltb_spec (strings.Index s sub) 0) as [Hneg|Hpos].
    + split; [lia|]. intros (a & b & Hab). destruct a as [|c' a].
      * rewrite append_empty in Hab.
        assert (strings.HasPrefix (String c s) sub = true) as Hq
          by (apply HasPrefix_spec; eauto).
        congruence.
      * rewrite append_cons in Hab. injection Hab as _ Hs.
        assert (0 ≤ strings.Index s sub) by (apply IH; eauto). lia.
    + split; [|lia]. intros _. destruct IH as [IH _].
      destruct (IH Hpos) as (a & b & ->). by exists (String c a), b.
Qed.

End Strings.

Section ValidateUrlProofs.
Context `{url.Parser}.

(** C9.  [ValidateUrl] returns [nil] exactly when the URL is not empty,
    parses as a request URI, has a scheme and a host, and its host
    contains the expected host as a substring; so a URL whose host has
    [yandex] anywhere in it passes the check of the yandex entry
    points. *)
Theorem ValidateUrl_accepts_iff (inputUrl host : string) :
  (internal.ValidateUrl inputUrl host = None ↔
     inputUrl ≠ "" ∧
     ∃ parsedUrl, url.ParseRequestURI inputUrl = inl parsedUrl ∧
       url.Scheme parsedUrl ≠ "" ∧ url.Host parsedUrl ≠ "" ∧
       ∃ a b, url.Host parsedUrl = a +:+ host +:+ b)
  ∧ (∀ parsedUrl a b,
       inputUrl ≠ "" →
       url.ParseRequestURI inputUrl = inl parsedUrl →
       url.Scheme parsedUrl ≠ "" →
       url.Host parsedUrl = a +:+ "yandex" +:+ b →
       internal.ValidateUrl inputUrl "yandex" = None).
Proof.
  assert (∀ h, internal.ValidateUrl inputUrl h = None ↔
     inputUrl ≠ "" ∧
     ∃ parsedUrl, url.ParseRequestURI inputUrl = inl parsedUrl ∧
       url.Scheme parsedUrl ≠ "" ∧ url.Host parsedUrl ≠ "" ∧
       ∃ a b, url.Host parsedUrl = a +:+ h +:+ b) as Hiff.
  { intros h. unfold internal.ValidateUrl.
    destruct (decide (inputUrl = "")) as [He|He].
    { split; [discriminate | intros [? _]; done]. }
    destruct (url.ParseRequestURI inputUrl) as [u|err] eqn:Hparse.
    2: { split; [discriminate | intros (_ & u & Hu & _); discriminate]. }
    destruct (decide (url.Scheme u = "")) as [Hs|Hs].
    { split; [discriminate | intros (_ & u' & Hu & ? & _); congruence]. }
    destruct (decide (url.Host u = "")) as [Hh|Hh].
    { split; [discriminate | intros (_ & u' & Hu & _ & ? & _); congruence]. }
    destruct (strings.Contains (url.Host u) h) eqn:Hc; simpl.
    - apply Contains_spec in Hc. split; [|done]. intros _. eauto 10.
    - split; [discriminate|]. intros (_ & u' & Hu & _ & _ & Hab).
      simplify_eq. apply Contains_spec in Hab. congruence. }
  split; [apply Hiff|].
  intros u a b Hne Hparse Hs Hhost. apply Hiff. split; [done|].
  exists u. repeat split; eauto.
  rewrite Hhost. destruct a; discriminate.
Qed.

End ValidateUrlProofs.

(** ** Runs of the entry points *)

Section Runs.
Context {Ty : Types} {Ox : oxylabs.Pkg} {In : internal.Defaults}
  {Ur : url.Parser} {Cl : Client}.

(* Runs the calling goroutine up to the collaborators' answers. *)
Ltac unfold_monad :=
  cbv beta iota zeta delta
    [mbind M_bind mret M_ret emit make_chan json_Marshal C_GetJobID C_Req];
  cbn [app next_chan goroutines].

(* Names the run of what follows the submission. *)
Ltac destruct_handshake :=
  match goal with
  | |- context [match ?X with _ => _ end] =>
      lazymatch X with
      | context [EvGetJobID] => fail
      | go_C_PollJobStatus _ _ _ _ _ _ => fail
      | context [go_C_PollJobStatus] =>
          let H := fresh "Hrest" in destruct X as [[?tr ?s] ?r] eqn:H
      end
  end.

(** The asynchronous entry points run as [async_run] says. *)
Lemma ScrapeYandexSearchCtx_run ctx query opts s tr s' r :
  SerpClientAsync.ScrapeYandexSearchCtx ctx query opts s = (tr, s', r) →
  async_run ctx s tr s' r.
Proof.
  unfold SerpClientAsync.ScrapeYandexSearchCtx. unfold_monad.
  destruct (YandexSearchOpts_checkParameterValidity _) as [err|].
  { intros ?; simplify_eq. apply run_invalid. }
  destruct (YandexSearchOpts.ParseInstructions _) as [instructions|].
  all: destruct (Marshal _) as [jsonPayload|err] eqn:Hm;
    [|intros ?; simplify_eq; by apply run_marshal_error].
  all: destruct (GetJobID _) as [jobID|err] eqn:Hj;
    [|intros ?; simplify_eq; by eapply run_submit_error].
  all: destruct_handshake.
  all: cbn [app]; intros ?; simplify_eq.
  all: eapply run_submitted; [exact Hm | exact Hj | exact Hrest].
Qed.

Lemma ScrapeYandexUrlCtx_run ctx url opts s tr s' r :
  SerpClientAsync.ScrapeYandexUrlCtx ctx url opts s = (tr, s', r) →
  async_run ctx s tr s' r.
Proof.
  unfold SerpClientAsync.ScrapeYandexUrlCtx. unfold_monad.
  destruct (internal.ValidateUrl _ _) as [err|].
  { intros ?; simplify_eq. apply run_invalid. }
  destruct (YandexUrlOpts_checkParameterValidity _) as [err|].
  { intros ?; simplify_eq. apply run_invalid. }
  destruct (YandexUrlOpts.ParseInstructions _) as [instructions|].
  all: destruct (Marshal _) as [jsonPayload|err] eqn:Hm;
    [|intros ?; simplify_eq; by apply run_marshal_error].
  all: destruct (GetJobID _) as [jobID|err] eqn:Hj;
    [|intros ?; simplify_eq; by eapply run_submit_error].
  all: destruct_handshake.
  all: cbn [app]; intros ?; simplify_eq.
  all: eapply run_submitted; [exact Hm | exact Hj | exact Hrest].
Qed.

(** An entry point without a context: the run of its body under the
    default timeout, then the deferred [cancel()]. *)
Lemma with_default_timeout_run {A} (f : context.Context → M A) s :
  with_default_timeout f s =
  match f default_ctx s with
  | (tr, s', Returns a) => (tr ++ [EvCancel default_ctx], s', Returns a)
  | (tr, s', Blocks) => (tr, s', Blocks)
  end.
Proof.
  unfold with_default_timeout. unfold_monad. fold default_ctx.
  by destruct (f default_ctx s) as [[tr s'] [a|]].
Qed.

(** A call runs the body under its context and then what it deferred. *)
Lemma call_run e s tr s' r :
  call e s = (tr, s', r) →
  ∃ tr0, async_run (call_ctx e) s tr0 s' r ∧ tr = tr0 ++ deferred e r.
Proof.
  destruct e as [ctx query opts|query opts|ctx url opts|url opts]; simpl.
  - intros Hrun. exists tr. rewrite app_nil_r.
    eauto using ScrapeYandexSearchCtx_run.
  - unfold SerpClientAsync.ScrapeYandexSearch.
    rewrite with_default_timeout_run.
    destruct (SerpClientAsync.ScrapeYandexSearchCtx _ _ _ _)
      as [[tr0 s0] [a|]] eqn:Hrun; intros ?; simplify_eq;
      (eexists; split; [by eapply ScrapeYandexSearchCtx_run|]);
      by rewrite ?app_nil_r.
  - intros Hrun. exists tr. rewrite app_nil_r.
    eauto using ScrapeYandexUrlCtx_run.
  - unfold SerpClientAsync.ScrapeYandexUrl.
    rewrite with_default_timeout_run.
    destruct (SerpClientAsync.ScrapeYandexUrlCtx _ _ _ _)
      as [[tr0 s0] [a|]] eqn:Hrun; intros ?; simplify_eq;
      (eexists; split; [by eapply ScrapeYandexUrlCtx_run|]);
      by rewrite ?app_nil_r.
Qed.

(** *** The handshake *)

(** A receive on a channel that no older goroutine sends on meets the
    goroutine started last, if its next send is on that channel. *)
Lemma rendezvous_new c (gs : list pending) (g0 : pending) :
  (∀ g c' m, g ∈ gs → (c', m) ∈ g → c' ≠ c) →
  rendezvous c (gs ++ [g0]) =
  match g0 with
  | (c', m) :: k => if decide (c' = c) then Some (m, gs ++ [k]) else None
  | [] => None
  end.
Proof.
  induction gs as [|g gs IH]; intros Hgs.
  - simpl. destruct g0 as [|[c' m] k]; [done|]. by case_decide.
  - cbn [app rendezvous]. rewrite IH by (intros ????; eapply Hgs; by right).
    destruct g as [|[c1 m1] k1].
    + destruct g0 as [|[c' m] k]; [done|]. by case_decide.
    + rewrite decide_False by (eapply Hgs; by left).
      destruct g0 as [|[c' m] k]; [done|]. by case_decide.
Qed.

Lemma poller_script_cons h ec snd k :
  poller_script h ec (snd :: k) =
  match snd with
  | ToHttpRespChan r => (h, MHttp r)
  | ToErrChan e => (ec, MErr e)
  end :: poller_script h ec k.
Proof. reflexivity. Qed.

Lemma poller_script_nil h ec : poller_script h ec [] = [].
Proof. reflexivity. Qed.

Ltac reduce := cbn [app next_chan goroutines].

Ltac unfold_handshake :=
  cbv beta iota zeta delta
    [handshake mbind M_bind mret M_ret emit block go recv recv_error
     recv_httpResp go_C_PollJobStatus go_send];
  cbn [app next_chan goroutines].

(** The handshake on two channels that no older goroutine sends on. *)
Lemma handshake_run ctx jobID pollInterval flag h rc ec s tr s' r :
  h ≠ ec →
  (∀ g c m, g ∈ goroutines s → (c, m) ∈ g → c ≠ h ∧ c ≠ ec) →
  handshake ctx jobID pollInterval flag h rc ec s = (tr, s', r) →
  ∃ tr' gs',
    tr = EvGo (GoPollJobStatus ctx jobID pollInterval h ec) :: tr' ∧
    s' = {| next_chan := next_chan s; goroutines := gs' |} ∧
    handshaken (goroutines s) flag h rc ec
      (PollJobStatus ctx jobID pollInterval) tr' gs' r.
Proof.
  intros Hne Hgs. unfold_handshake.
  rewrite rendezvous_new by (intros ????; by eapply Hgs).
  destruct (PollJobStatus ctx jobID pollInterval) as [|[resp|[err|]] k];
    rewrite ?poller_script_nil, ?poller_script_cons, ?decide_True,
      ?decide_False by done; reduce.
  - intros ?; simplify_eq. eexists _, _; split_and!; [done..|].
    by exact (hs_silent _ _ _ _ _ [] ltac:(done)).
  - intros ?; simplify_eq. eexists _, _; split_and!; [done..|].
    by exact (hs_silent _ _ _ _ _ (ToHttpRespChan resp :: k) ltac:(done)).
  - intros ?; simplify_eq. eexists _, _; split_and!; [done..|]. apply hs_error.
  - rewrite rendezvous_new by (intros ????; by eapply Hgs).
    destruct k as [|[resp|err'] k];
      rewrite ?poller_script_nil, ?poller_script_cons, ?decide_True,
      ?decide_False by done; reduce.
    + intros ?; simplify_eq. eexists _, _; split_and!; [done..|].
      by exact (hs_no_response _ _ _ _ _ [] ltac:(done)).
    + destruct (GetResp resp flag flag) as [resp'|err] eqn:Hresp;
        reduce; intros ?; simplify_eq; (eexists _, _; split_and!; [done..|]).
      * by apply hs_delivered.
      * by apply hs_bad_response.
    + intros ?; simplify_eq. eexists _, _; split_and!; [done..|].
      by exact (hs_no_response _ _ _ _ _ (ToErrChan err' :: k) ltac:(done)).
Qed.

(** Whatever the goroutines do, a handshake starts the poller under the
    context of the call, and then only receives and forwards. *)
Lemma handshake_events ctx jobID pollInterval flag h rc ec s tr s' r :
  handshake ctx jobID pollInterval flag h rc ec s = (tr, s', r) →
  ∃ tr', tr = EvGo (GoPollJobStatus ctx jobID pollInterval h ec) :: tr' ∧
         Forall (handshake_event rc) tr'.
Proof.
  unfold_handshake.
  destruct (rendezvous ec _) as [[[err| |] gs]|]; reduce;
    try (intros ?; simplify_eq; eexists; split; [done|];
         repeat constructor).
  destruct err as [err|]; reduce;
    [intros ?; simplify_eq; eexists; split; [done|]; repeat constructor|].
  destruct (rendezvous h _) as [[[| httpResp |] gs']|]; reduce;
    try (intros ?; simplify_eq; eexists; split; [done|];
         repeat constructor).
  destruct (GetResp _ _ _); reduce;
    intros ?; simplify_eq; eexists; (split; [done|]); repeat constructor.
Qed.

Lemma deferred_cancel {A} e (r : result A) ev :
  ev ∈ deferred e r → ev = EvCancel default_ctx.
Proof.
  destruct e, r; simpl; intros Hev;
    first [by apply elem_of_nil in Hev | by apply list_elem_of_singleton in Hev].
Qed.

(* Case analysis on the membership of an event in an explicit trace. *)
Ltac elems :=
  repeat match goal with
    | H : _ ∈ [] |- _ => by apply elem_of_nil in H
    | H : _ ∈ _ :: _ |- _ => apply elem_of_cons in H as [H|H]
    | H : _ ∈ _ ++ _ |- _ => apply elem_of_app in H as [H|H]
    | H : _ ∈ deferred _ _ |- _ => apply deferred_cancel in H
    | H : Forall (handshake_event _) ?tr, H' : _ ∈ ?tr |- _ =>
        apply (proj1 (Forall_forall _ _) H) in H'; inversion H'
    end;
  simplify_eq.

(** *** Submission errors *)

(** C1.  For every call of an asynchronous entry point: if the job
    submission [GetJobID] answers with an error, the call returns that
    error with no channel, it has started no goroutine, and the
    goroutines of the program are those that were there before. *)
Theorem submission_error_returned (e : async_entry) (s : state) tr s' r
    (jsonPayload : string) (err : error) :
  call e s = (tr, s', r) →
  EvGetJobID jsonPayload ∈ tr →
  GetJobID jsonPayload = inr err →
  r = Returns (None, Some err)
  ∧ (∀ g, EvGo g ∉ tr)
  ∧ goroutines s' = goroutines s.
Proof.
  intros Hcall Hin Herr.
  apply call_run in Hcall as (tr0 & Hrun & ->).
  destruct Hrun as [ | | payload body err' Hm Hj
                   | payload body jobID i flag trh sh rh Hm Hj Hh].
  - elems.
  - elems.
  - split_and!; [elems; congruence| |done]. intros g Hg. elems.
  - apply handshake_events in Hh as (tr' & -> & Htr'). elems. congruence.
Qed.

(** *** Sends that are pending on a channel *)

Lemma pending_on_app c gs gs' :
  pending_on c (gs ++ gs') = pending_on c gs ++ pending_on c gs'.
Proof. unfold pending_on. by rewrite concat_app, filter_app, fmap_app. Qed.

Lemma pending_on_none c gs :
  (∀ g c' m, g ∈ gs → (c', m) ∈ g → c' ≠ c) → pending_on c gs = [].
Proof.
  intros Hgs. unfold pending_on.
  induction gs as [|g gs IH]; [done|].
  simpl. rewrite filter_app, fmap_app, IH
    by (intros g' c' m ??; eapply (Hgs g'); [by right|done]).
  rewrite app_nil_r.
  assert (∀ c' m, (c', m) ∈ g → c' ≠ c) as Hg
    by (intros c' m ?; eapply (Hgs g); [by left|done]).
  clear Hgs IH. induction g as [|[c' m] g IH]; [done|].
  rewrite filter_cons_False by (simpl; eapply Hg; by left).
  apply IH. intros c1 m1 ?. eapply Hg. by right.
Qed.

Lemma poller_script_elem h ec sends c m :
  (c, m) ∈ poller_script h ec sends → c = h ∨ c = ec.
Proof.
  unfold poller_script. intros (snd & Heq & _)%list_elem_of_fmap.
  destruct snd; simplify_eq; auto.
Qed.

Lemma pending_on_poller_script c h ec sends :
  c ≠ h → c ≠ ec → pending_on c [poller_script h ec sends] = [].
Proof.
  intros ??. apply pending_on_none. intros g c' m ->%list_elem_of_singleton Hc.
  apply poller_script_elem in Hc as [->| ->]; done.
Qed.

Lemma pending_on_single c m : pending_on c [[(c, m)]] = [m].
Proof. unfold pending_on. simpl. by rewrite filter_cons_True, filter_nil. Qed.

(** *** Positions in a trace *)

Lemma split_nil {A} (pre post : list A) x : [] = pre ++ x :: post → False.
Proof. by destruct pre. Qed.

Lemma split_cons {A} (pre post l : list A) x a :
  a :: l = pre ++ x :: post →
  (pre = [] ∧ a = x ∧ l = post) ∨ (∃ pre', pre = a :: pre' ∧ l = pre' ++ x :: post).
Proof. destruct pre; intros [= -> ->]; eauto. Qed.

(* All the ways in which an explicit trace is [pre ++ x :: post]. *)
Ltac split_trace H :=
  lazymatch type of H with
  | [] = _ => by apply split_nil in H
  | _ :: _ = _ =>
      let Hx := fresh in
      let pre' := fresh "pre" in
      apply split_cons in H as [(-> & Hx & <-) | (pre' & -> & H)];
      [try discriminate Hx; simplify_eq | split_trace H]
  end.

(** The run of a call from a fresh state: what precedes the handshake,
    and the handshake by the sends of the poller. *)
(** The handshake of a call from a fresh state: its three channels are
    new. *)
Lemma submitted_fresh ctx jobID i flag s tr s' r :
  fresh_state s →
  handshake ctx jobID i flag
    (next_chan s) (S (next_chan s)) (S (S (next_chan s))) (made3 s) = (tr, s', r) →
  ∃ tr' gs',
    tr = EvGo (GoPollJobStatus ctx jobID i (next_chan s) (S (S (next_chan s)))) :: tr' ∧
    s' = {| next_chan := S (S (S (next_chan s))); goroutines := gs' |} ∧
    handshaken (goroutines s) flag (next_chan s) (S (next_chan s)) (S (S (next_chan s)))
      (PollJobStatus ctx jobID i) tr' gs' r.
Proof.
  intros Hs Hh. apply handshake_run in Hh as (tr' & gs' & -> & -> & Hh);
    [eauto 10|lia|].
  intros g c m Hg Hc. specialize (Hs g c m Hg Hc). lia.
Qed.

Lemma fresh_pending_on s c :
  fresh_state s → (next_chan s ≤ c)%nat → pending_on c (goroutines s) = [].
Proof.
  intros Hs Hc. apply pending_on_none. intros g c' m Hg Hc'.
  specialize (Hs g c' m Hg Hc'). lia.
Qed.

(** *** The error channel is read first, and once *)

(** C5.  Once the poller is started, a call from a fresh state either
    blocks with nothing read, or reads the error channel next, exactly
    once; if the value read is an error, the call returns that error and
    no channel, starts no other goroutine, and nothing is sent on the
    channel made for the caller. *)
Theorem error_channel_read_before_return (e : async_entry) (s : state)
    tr s' r pre post ctx jobID pollInterval httpRespChan errChan :
  fresh_state s →
  call e s = (tr, s', r) →
  tr = pre ++ EvGo (GoPollJobStatus ctx jobID pollInterval httpRespChan errChan)
             :: post →
  (post = [] ∧ r = Blocks)
  ∨ ∃ v post',
      post = EvRecv errChan (MErr v) :: post'
      ∧ (∀ m, EvRecv errChan m ∉ post')
      ∧ ∀ err, v = Some err →
          r = Returns (None, Some err)
          ∧ (∀ g, EvGo g ∉ post')
          ∧ sends_on (S (next_chan s)) s' = [].
Proof.
  intros Hs Hcall Htr.
  apply call_run in Hcall as (tr0 & Hrun & ->).
  destruct Hrun as [ | | payload body err' Hm Hj
                   | payload body jobID' i flag trh sh rh Hm Hj Hh].
  1-3: destruct e; cbn [deferred app] in Htr; split_trace Htr.
  apply submitted_fresh in Hh as (tr' & gs' & -> & -> & Hh); [|done].
  unfold sends_on; cbn [goroutines].
  pose proof (fresh_pending_on s (S (next_chan s)) Hs ltac:(lia)) as Hrc.
  unfold sends_on.
  destruct Hh; destruct e; cbn [deferred app] in Htr; split_trace Htr.
  all: try by left.
  all: right; do 2 eexists; split; [reflexivity|].
  all: split; [intros m Hm'; elems; lia|]; intros err' ?; simplify_eq.
  all: split; [done|]; split; [intros g Hg; elems|].
  all: by rewrite pending_on_app, Hrc, pending_on_poller_script by lia.
Qed.

(** *** Order of the reads, and the writes of the caller's channel *)

(** C6.  In a call from a fresh state, a read of the internal response
    channel comes after a read of [nil] on the error channel; at most
    one value is ever sent on the channel made for the caller, which is
    the channel a call returns; and at most one goroutine is started to
    send on it. *)
Theorem error_read_precedes_result_read (e : async_entry) (s : state) tr s' r :
  fresh_state s →
  call e s = (tr, s', r) →
  (∀ ctx jobID pollInterval httpRespChan errChan pre m post,
     EvGo (GoPollJobStatus ctx jobID pollInterval httpRespChan errChan) ∈ tr →
     tr = pre ++ EvRecv httpRespChan m :: post →
     EvRecv errChan (MErr None) ∈ pre)
  ∧ (length (sends_on (S (next_chan s)) s') ≤ 1)%nat
  ∧ (∀ ch err, r = Returns (Some ch, err) → ch = S (next_chan s))
  ∧ (∀ pre post respChan resp,
       tr = pre ++ EvGo (GoSend respChan resp) :: post →
       respChan = S (next_chan s) ∧
       ∀ c resp', EvGo (GoSend c resp') ∉ pre ++ post).
Proof.
  intros Hs Hcall.
  apply call_run in Hcall as (tr0 & Hrun & ->).
  pose proof (fresh_pending_on s (S (next_chan s)) Hs ltac:(lia)) as Hrc.
  unfold sends_on in *.
  destruct Hrun as [ | | payload body err' Hm Hj
                   | payload body jobID' i flag trh sh rh Hm Hj Hh].
  1-3: split_and!;
    [ intros ?????? m ? Hgo Htr; destruct e; cbn [deferred app] in Htr;
      split_trace Htr
    | cbn [made3 goroutines]; rewrite Hrc; simpl; lia
    | by intros ?? [=]
    | intros ???? Htr; destruct e; cbn [deferred app] in Htr;
      split_trace Htr ].
  apply submitted_fresh in Hh as (tr' & gs' & -> & -> & Hh); [|done].
  unfold sends_on; cbn [goroutines].
  destruct Hh; split_and!.
  all: try (intros ?????? m ? Hgo Htr; destruct e; cbn [deferred app] in *;
            elems; split_trace Htr; try lia;
            repeat first [by apply list_elem_of_here | apply list_elem_of_further]).
  all: try (by intros ?? [=]).
  all: try (intros ???? Htr; destruct e; cbn [deferred app] in Htr;
            split_trace Htr; (split; [done|]); intros c resp' Hin;
            cbn [app] in Hin; elems).
  all: rewrite ?pending_on_app, ?Hrc, ?pending_on_single,
         ?pending_on_poller_script by lia; simpl; lia.
Qed.

(** *** An error or a channel *)

(** C2.  A call of an asynchronous entry point from a fresh state
    returns either an error and no channel, with nothing sent on the
    channel it made for the caller, or no error and a channel on which
    exactly one value is pending, the response that [GetResp] built: the
    caller's first receive yields it and a second receive blocks.  It
    never returns both or neither; and when the poller keeps to the
    handshake, the call does return. *)
Theorem error_or_channel (e : async_entry) (s : state) tr s' r :
  fresh_state s →
  call e s = (tr, s', r) →
  (∀ ch err, r = Returns (ch, err) →
     (ch = None ∧ err ≠ None ∧ sends_on (S (next_chan s)) s' = [])
     ∨ (∃ c httpResp flag resp s'',
          ch = Some c ∧ err = None
          ∧ GetResp httpResp flag flag = inl resp
          ∧ sends_on c s' = [MResp resp]
          ∧ recv c s' = ([EvRecv c (MResp resp)], s'', Returns (MResp resp))
          ∧ recv c s'' = ([], s'', Blocks)))
  ∧ ((∀ ctx jobID pollInterval,
        follows_handshake (PollJobStatus ctx jobID pollInterval)) →
     r ≠ Blocks).
Proof.
  intros Hs Hcall.
  apply call_run in Hcall as (tr0 & Hrun & ->).
  pose proof (fresh_pending_on s (S (next_chan s)) Hs ltac:(lia)) as Hrc.
  unfold sends_on in *.
  destruct Hrun as [ | | payload body err' Hm Hj
                   | payload body jobID' i flag trh sh rh Hm Hj Hh].
  1-3: split; [intros ?? [= <- <-]; left; cbn [made3 goroutines]; by rewrite Hrc | done].
  apply submitted_fresh in Hh as (tr' & gs' & -> & -> & Hh); [|done].
  unfold sends_on; cbn [goroutines].
  remember (PollJobStatus (call_ctx e) jobID' i) as polled eqn:Hpolled.
  destruct Hh as [sends Hsil|err k|k Hno|httpResp k err Hr|httpResp k resp Hr].
  - split; [done|]. intros Hp _.
    destruct (Hp (call_ctx e) jobID' i) as [(?&?&Heq)|(?&?&Heq)];
      rewrite <-Hpolled in Heq; by eapply Hsil.
  - split; [|done]. intros ?? [= <- <-]. left.
    by rewrite pending_on_app, Hrc, pending_on_poller_script by lia.
  - split; [done|]. intros Hp _.
    destruct (Hp (call_ctx e) jobID' i) as [(?&?&Heq)|(?&?&Heq)];
      rewrite <-Hpolled in Heq; simplify_eq. by eapply Hno.
  - split; [|done]. intros ?? [= <- <-]. left.
    by rewrite pending_on_app, Hrc, pending_on_poller_script by lia.
  - split; [|done]. intros ?? [= <- <-]. right.
    assert (∀ g c m,
      g ∈ goroutines s ++ [poller_script (next_chan s) (S (S (next_chan s))) k] →
      (c, m) ∈ g → c ≠ S (next_chan s)) as Hold.
    { intros g c m [Hg| ->%list_elem_of_singleton]%elem_of_app Hc.
      - specialize (Hs g c m Hg Hc). lia.
      - apply poller_script_elem in Hc. lia. }
    eexists _, httpResp, flag, resp, _. split_and!; [done..| | |].
    + by rewrite !pending_on_app, Hrc, pending_on_single,
        pending_on_poller_script by lia.
    + unfold recv. cbn [goroutines next_chan]. rewrite rendezvous_new by done.
      by rewrite decide_True by done.
    + unfold recv. cbn [goroutines]. by rewrite rendezvous_new by done.
Qed.

(** *** The submission and the context *)

Lemma submitted_handshake rc tr :
  Forall (handshake_event rc) tr → submitted tr = [].
Proof. induction 1 as [|ev tr [] _ IH]; [done|done|done]. Qed.

Lemma submitted_run payload jsonPayload g tr :
  submitted (EvMarshal payload :: EvGetJobID jsonPayload :: EvGo g :: tr)
  = jsonPayload :: submitted tr.
Proof. reflexivity. Qed.

(** The context of a handshake reaches the poller only: with the same
    sends of the poller, a handshake returns the same and leaves the same
    goroutines. *)
Lemma handshake_context ctx ctx' jobID pollInterval flag h rc ec s
    tr s1 r tr' s1' r' :
  handshake ctx jobID pollInterval flag h rc ec s = (tr, s1, r) →
  handshake ctx' jobID pollInterval flag h rc ec s = (tr', s1', r') →
  PollJobStatus ctx jobID pollInterval = PollJobStatus ctx' jobID pollInterval →
  r = r' ∧ s1 = s1'.
Proof.
  intros Hrun Hrun' Hpoll. revert Hrun Hrun'. unfold_handshake. rewrite Hpoll.
  destruct (rendezvous ec _) as [[[err| |] gs]|]; reduce;
    try (intros ??; by simplify_eq).
  destruct err as [err|]; reduce; [intros ??; by simplify_eq|].
  destruct (rendezvous h _) as [[[| httpResp |] gs']|]; reduce;
    try (intros ??; by simplify_eq).
  destruct (GetResp _ _ _); reduce; intros ??; by simplify_eq.
Qed.

Lemma async_search_context ctx ctx' query opts s :
  (∀ jobID pollInterval,
     PollJobStatus ctx jobID pollInterval = PollJobStatus ctx' jobID pollInterval) →
  (SerpClientAsync.ScrapeYandexSearchCtx ctx query opts s).2
  = (SerpClientAsync.ScrapeYandexSearchCtx ctx' query opts s).2
  ∧ (SerpClientAsync.ScrapeYandexSearchCtx ctx query opts s).1.2
    = (SerpClientAsync.ScrapeYandexSearchCtx ctx' query opts s).1.2.
Proof.
  intros Hpoll. unfold SerpClientAsync.ScrapeYandexSearchCtx. unfold_monad.
  destruct (YandexSearchOpts_checkParameterValidity _) as [err|]; [done|].
  destruct (YandexSearchOpts.ParseInstructions _) as [instructions|].
  all: destruct (Marshal _) as [jsonPayload|err]; [|done].
  all: destruct (GetJobID _) as [jobID|err]; [|done].
  all: do 2 destruct_handshake; cbn [fst snd].
  all: eapply handshake_context; [exact Hrest | exact Hrest0 | apply Hpoll].
Qed.

Lemma async_url_context ctx ctx' url opts s :
  (∀ jobID pollInterval,
     PollJobStatus ctx jobID pollInterval = PollJobStatus ctx' jobID pollInterval) →
  (SerpClientAsync.ScrapeYandexUrlCtx ctx url opts s).2
  = (SerpClientAsync.ScrapeYandexUrlCtx ctx' url opts s).2
  ∧ (SerpClientAsync.ScrapeYandexUrlCtx ctx url opts s).1.2
    = (SerpClientAsync.ScrapeYandexUrlCtx ctx' url opts s).1.2.
Proof.
  intros Hpoll. unfold SerpClientAsync.ScrapeYandexUrlCtx. unfold_monad.
  destruct (internal.ValidateUrl _ _) as [err|]; [done|].
  destruct (YandexUrlOpts_checkParameterValidity _) as [err|]; [done|].
  destruct (YandexUrlOpts.ParseInstructions _) as [instructions|].
  all: destruct (Marshal _) as [jsonPayload|err]; [|done].
  all: destruct (GetJobID _) as [jobID|err]; [|done].
  all: do 2 destruct_handshake; cbn [fst snd].
  all: eapply handshake_context; [exact Hrest | exact Hrest0 | apply Hpoll].
Qed.

(** When the poller sends an error first, the call reads it after the
    job is submitted and returns it. *)
Lemma poller_error_returned e s tr s' r jobID i h ec err k :
  fresh_state s →
  call e s = (tr, s', r) →
  EvGo (GoPollJobStatus (call_ctx e) jobID i h ec) ∈ tr →
  PollJobStatus (call_ctx e) jobID i = ToErrChan (Some err) :: k →
  r = Returns (None, Some err)
  ∧ ∃ jsonPayload pre post,
      tr = pre ++ EvRecv ec (MErr (Some err)) :: post
      ∧ EvGetJobID jsonPayload ∈ pre
      ∧ GetJobID jsonPayload = inl jobID.
Proof.
  intros Hs (tr0 & Hrun & ->)%call_run Hin Hpoll.
  destruct Hrun as [ | | | payload body jobID' i' flag trh sh rh Hm Hj Hh].
  1-3: elems.
  apply submitted_fresh in Hh as (tr' & gs' & -> & -> & Hh); [|done].
  assert (jobID' = jobID ∧ i' = i ∧ ec = S (S (next_chan s))) as (-> & -> & ->).
  { destruct Hh; elems; done. }
  rewrite Hpoll in Hh.
  inversion Hh as [sends Hsil| | | |]; subst; [by destruct (Hsil _ _ eq_refl)|].
  split; [done|].
  exists body, [EvMarshal payload; EvGetJobID body;
                EvGo (GoPollJobStatus (call_ctx e) jobID i (next_chan s)
                        (S (S (next_chan s))))],
    (deferred e (Returns (@None chan, Some err))).
  split_and!; [done | by apply list_elem_of_further, list_elem_of_here | done].
Qed.

(** C4, as amended.  The job submission is given the marshalled payload
    only: whatever context the caller supplies, the same payloads are
    handed to [GetJobID]; the context of the call reaches the poller,
    and nothing before it.  A cancellation comes back through the poller
    alone: when the poller sends an error first, a call from a fresh
    state reads it on the error channel after the job is submitted, and
    returns it; and with a poller whose sends are the same under two
    contexts, a call returns the same, and leaves the same goroutines,
    under both. *)
Theorem submission_ignores_context (ctx ctx' : context.Context) (s : state) :
  (∀ query opts,
     submitted (SerpClientAsync.ScrapeYandexSearchCtx ctx query opts s).1.1 =
     submitted (SerpClientAsync.ScrapeYandexSearchCtx ctx' query opts s).1.1)
  ∧ (∀ url opts,
     submitted (SerpClientAsync.ScrapeYandexUrlCtx ctx url opts s).1.1 =
     submitted (SerpClientAsync.ScrapeYandexUrlCtx ctx' url opts s).1.1)
  ∧ (∀ e tr s' r c jobID pollInterval httpRespChan errChan,
       call e s = (tr, s', r) →
       EvGo (GoPollJobStatus c jobID pollInterval httpRespChan errChan) ∈ tr →
       c = call_ctx e)
  ∧ (∀ e tr s' r jobID pollInterval httpRespChan errChan err k,
       fresh_state s →
       call e s = (tr, s', r) →
       EvGo (GoPollJobStatus (call_ctx e) jobID pollInterval httpRespChan errChan)
         ∈ tr →
       PollJobStatus (call_ctx e) jobID pollInterval = ToErrChan (Some err) :: k →
       r = Returns (None, Some err)
       ∧ ∃ jsonPayload pre post,
           tr = pre ++ EvRecv errChan (MErr (Some err)) :: post
           ∧ EvGetJobID jsonPayload ∈ pre
           ∧ GetJobID jsonPayload = inl jobID)
  ∧ ((∀ jobID pollInterval,
        PollJobStatus ctx jobID pollInterval = PollJobStatus ctx' jobID pollInterval) →
     (∀ query opts,
        (SerpClientAsync.ScrapeYandexSearchCtx ctx query opts s).2
        = (SerpClientAsync.ScrapeYandexSearchCtx ctx' query opts s).2
        ∧ (SerpClientAsync.ScrapeYandexSearchCtx ctx query opts s).1.2
          = (SerpClientAsync.ScrapeYandexSearchCtx ctx' query opts s).1.2)
     ∧ (∀ url opts,
        (SerpClientAsync.ScrapeYandexUrlCtx ctx url opts s).2
        = (SerpClientAsync.ScrapeYandexUrlCtx ctx' url opts s).2
        ∧ (SerpClientAsync.ScrapeYandexUrlCtx ctx url opts s).1.2
          = (SerpClientAsync.ScrapeYandexUrlCtx ctx' url opts s).1.2)).
Proof.
  split_and!.
  - intros query opts. unfold SerpClientAsync.ScrapeYandexSearchCtx. unfold_monad.
    destruct (YandexSearchOpts_checkParameterValidity _) as [err|]; [done|].
    destruct (YandexSearchOpts.ParseInstructions _) as [instructions|].
    all: destruct (Marshal _) as [jsonPayload|err] eqn:Hm; [|done].
    all: destruct (GetJobID _) as [jobID|err] eqn:Hj; [|done].
    all: do 2 destruct_handshake.
    all: apply handshake_events in Hrest as (? & -> & ?).
    all: apply handshake_events in Hrest0 as (? & -> & ?).
    all: cbn [fst]; rewrite !submitted_run.
    all: by erewrite !submitted_handshake.
  - intros url opts. unfold SerpClientAsync.ScrapeYandexUrlCtx. unfold_monad.
    destruct (internal.ValidateUrl _ _) as [err|]; [done|].
    destruct (YandexUrlOpts_checkParameterValidity _) as [err|]; [done|].
    destruct (YandexUrlOpts.ParseInstructions _) as [instructions|].
    all: destruct (Marshal _) as [jsonPayload|err] eqn:Hm; [|done].
    all: destruct (GetJobID _) as [jobID|err] eqn:Hj; [|done].
    all: do 2 destruct_handshake.
    all: apply handshake_events in Hrest as (? & -> & ?).
    all: apply handshake_events in Hrest0 as (? & -> & ?).
    all: cbn [fst]; rewrite !submitted_run.
    all: by erewrite !submitted_handshake.
  - intros e tr s' r c jobID i h ec Hcall Hin.
    apply call_run in Hcall as (tr0 & Hrun & ->).
    destruct Hrun as [ | | payload body err' Hm Hj
                     | payload body jobID' i' flag trh sh rh Hm Hj Hh].
    1-3: elems.
    apply handshake_events in Hh as (tr' & -> & Htr'). by elems.
  - intros e tr s' r jobID i h ec err k. apply poller_error_returned.
  - intros Hpoll. split; intros.
    + by apply async_search_context.
    + by apply async_url_context.
Qed.

(** *** The synchronous client *)

(** The synchronous entry points run as [sync_run] says. *)
Lemma sync_ScrapeYandexSearchCtx_run ctx query opts s tr s' r :
  SerpClient.ScrapeYandexSearchCtx ctx query opts s = (tr, s', r) →
  sync_run ctx s tr s' r.
Proof.
  unfold SerpClient.ScrapeYandexSearchCtx. unfold_monad.
  destruct (YandexSearchOpts_checkParameterValidity _) as [err|].
  { intros ?; simplify_eq. apply sync_invalid. }
  destruct (YandexSearchOpts.ParseInstructions _) as [instructions|].
  all: destruct (Marshal _) as [jsonPayload|err] eqn:Hm;
    [|intros ?; simplify_eq; by apply sync_marshal_error].
  all: destruct (Req _ _ _) as [httpResp|err] eqn:Hq;
    [|intros ?; simplify_eq; by eapply sync_req_error].
  all: destruct (GetResp _ _ _) as [resp|err] eqn:Hr;
    intros ?; simplify_eq;
    [by eapply sync_resp | by eapply sync_resp_error].
Qed.

Lemma sync_ScrapeYandexUrlCtx_run ctx url opts s tr s' r :
  SerpClient.ScrapeYandexUrlCtx ctx url opts s = (tr, s', r) →
  sync_run ctx s tr s' r.
Proof.
  unfold SerpClient.ScrapeYandexUrlCtx. unfold_monad.
  destruct (internal.ValidateUrl _ _) as [err|].
  { intros ?; simplify_eq. apply sync_invalid. }
  destruct (YandexUrlOpts_checkParameterValidity _) as [err|].
  { intros ?; simplify_eq. apply sync_invalid. }
  destruct (YandexUrlOpts.ParseInstructions _) as [instructions|].
  all: destruct (Marshal _) as [jsonPayload|err] eqn:Hm;
    [|intros ?; simplify_eq; by apply sync_marshal_error].
  all: destruct (Req _ _ _) as [httpResp|err] eqn:Hq;
    [|intros ?; simplify_eq; by eapply sync_req_error].
  all: destruct (GetResp _ _ _) as [resp|err] eqn:Hr;
    intros ?; simplify_eq;
    [by eapply sync_resp | by eapply sync_resp_error].
Qed.

(** *** The context of a call *)

Lemma contexts_app tr tr' : contexts (tr ++ tr') = contexts tr ++ contexts tr'.
Proof. apply omap_app. Qed.

Lemma contexts_handshake rc tr : Forall (handshake_event rc) tr → contexts tr = [].
Proof. induction 1 as [|ev tr [] _ IH]; [done|done|done]. Qed.

Lemma contexts_run payload jsonPayload ctx jobID pollInterval h ec tr :
  contexts (EvMarshal payload :: EvGetJobID jsonPayload
            :: EvGo (GoPollJobStatus ctx jobID pollInterval h ec) :: tr)
  = ctx :: contexts tr.
Proof. reflexivity. Qed.

Lemma sync_run_contexts ctx s tr s' r :
  sync_run ctx s tr s' r → Forall (eq ctx) (contexts tr).
Proof. destruct 1; repeat constructor. Qed.

Lemma async_run_contexts ctx s tr s' r :
  async_run ctx s tr s' r → Forall (eq ctx) (contexts tr).
Proof.
  destruct 1 as [ | | | ???????? Hm Hj Hh]; try by repeat constructor.
  apply handshake_events in Hh as (tr' & -> & Htr').
  rewrite contexts_run, (contexts_handshake _ _ Htr'). by repeat constructor.
Qed.

Lemma under_default_timeout_contexts {A} (f : context.Context → M A) m s :
  under_default_timeout f m →
  Forall (eq default_ctx) (contexts (f default_ctx s).1.1) →
  Forall (eq default_ctx) (contexts (m s).1.1).
Proof.
  intros Hm Hf. rewrite Hm. destruct (f default_ctx s) as [[tr s'] [a|]]; [|done].
  cbn [fst] in *. rewrite contexts_app, app_nil_r. done.
Qed.

(** C8.  An entry point without a context runs its [Ctx] counterpart
    under [context.WithTimeout(context.Background(), DefaultTimeout)]
    and cancels that context when it returns; the context that a run
    hands to the transport or to the poller is the caller's for the
    [Ctx] entry points, and this one for the others. *)
Theorem default_timeout_context :
  (∀ query opts,
     under_default_timeout (λ ctx, SerpClient.ScrapeYandexSearchCtx ctx query opts)
       (SerpClient.ScrapeYandexSearch query opts)
     ∧ under_default_timeout
         (λ ctx, SerpClientAsync.ScrapeYandexSearchCtx ctx query opts)
         (SerpClientAsync.ScrapeYandexSearch query opts))
  ∧ (∀ url opts,
     under_default_timeout (λ ctx, SerpClient.ScrapeYandexUrlCtx ctx url opts)
       (SerpClient.ScrapeYandexUrl url opts)
     ∧ under_default_timeout
         (λ ctx, SerpClientAsync.ScrapeYandexUrlCtx ctx url opts)
         (SerpClientAsync.ScrapeYandexUrl url opts))
  ∧ (∀ ctx query opts s,
     Forall (eq ctx) (contexts (SerpClient.ScrapeYandexSearchCtx ctx query opts s).1.1)
     ∧ Forall (eq ctx)
         (contexts (SerpClientAsync.ScrapeYandexSearchCtx ctx query opts s).1.1))
  ∧ (∀ ctx url opts s,
     Forall (eq ctx) (contexts (SerpClient.ScrapeYandexUrlCtx ctx url opts s).1.1)
     ∧ Forall (eq ctx)
         (contexts (SerpClientAsync.ScrapeYandexUrlCtx ctx url opts s).1.1))
  ∧ (∀ query opts s,
     Forall (eq default_ctx) (contexts (SerpClient.ScrapeYandexSearch query opts s).1.1)
     ∧ Forall (eq default_ctx)
         (contexts (SerpClientAsync.ScrapeYandexSearch query opts s).1.1))
  ∧ (∀ url opts s,
     Forall (eq default_ctx) (contexts (SerpClient.ScrapeYandexUrl url opts s).1.1)
     ∧ Forall (eq default_ctx)
         (contexts (SerpClientAsync.ScrapeYandexUrl url opts s).1.1)).
Proof.
  assert (∀ ctx query opts s,
    Forall (eq ctx) (contexts (SerpClient.ScrapeYandexSearchCtx ctx query opts s).1.1)
    ∧ Forall (eq ctx)
        (contexts (SerpClientAsync.ScrapeYandexSearchCtx ctx query opts s).1.1))
    as Hsearch.
  { intros ctx query opts s. split.
    - destruct (SerpClient.ScrapeYandexSearchCtx _ _ _ _) as [[tr s'] r] eqn:Hrun.
      eapply sync_run_contexts, sync_ScrapeYandexSearchCtx_run, Hrun.
    - destruct (SerpClientAsync.ScrapeYandexSearchCtx _ _ _ _) as [[tr s'] r] eqn:Hrun.
      eapply async_run_contexts, ScrapeYandexSearchCtx_run, Hrun. }
  assert (∀ ctx url opts s,
    Forall (eq ctx) (contexts (SerpClient.ScrapeYandexUrlCtx ctx url opts s).1.1)
    ∧ Forall (eq ctx)
        (contexts (SerpClientAsync.ScrapeYandexUrlCtx ctx url opts s).1.1))
    as Hurl.
  { intros ctx url opts s. split.
    - destruct (SerpClient.ScrapeYandexUrlCtx _ _ _ _) as [[tr s'] r] eqn:Hrun.
      eapply sync_run_contexts, sync_ScrapeYandexUrlCtx_run, Hrun.
    - destruct (SerpClientAsync.ScrapeYandexUrlCtx _ _ _ _) as [[tr s'] r] eqn:Hrun.
      eapply async_run_contexts, ScrapeYandexUrlCtx_run, Hrun. }
  assert (∀ query opts,
    under_default_timeout (λ ctx, SerpClient.ScrapeYandexSearchCtx ctx query opts)
      (SerpClient.ScrapeYandexSearch query opts)
    ∧ under_default_timeout
        (λ ctx, SerpClientAsync.ScrapeYandexSearchCtx ctx query opts)
        (SerpClientAsync.ScrapeYandexSearch query opts)) as Hdsearch.
  { intros; split; intros s; apply with_default_timeout_run. }
  assert (∀ url opts,
    under_default_timeout (λ ctx, SerpClient.ScrapeYandexUrlCtx ctx url opts)
      (SerpClient.ScrapeYandexUrl url opts)
    ∧ under_default_timeout
        (λ ctx, SerpClientAsync.ScrapeYandexUrlCtx ctx url opts)
        (SerpClientAsync.ScrapeYandexUrl url opts)) as Hdurl.
  { intros; split; intros s; apply with_default_timeout_run. }
  split_and!; [done..| |].
  - intros query opts s. destruct (Hdsearch query opts) as [Hs Ha].
    split; eapply under_default_timeout_contexts; eauto; apply Hsearch.
  - intros url opts s. destruct (Hdurl url opts) as [Hs Ha].
    split; eapply under_default_timeout_contexts; eauto; apply Hurl.
Qed.

(** *** Validation *)

(** C7.  When the options fail [checkParameterValidity], or the URL
    fails [ValidateUrl], every entry point returns that error and
    nothing else: the trace holds no [Req], no [GetJobID] and no [go]
    (only the deferred [cancel] of the entry points without a context),
    and the goroutines are unchanged. *)
Theorem invalid_input_returns_before_network :
  (∀ ctx query opts s err,
     search_refused opts = Some err →
     SerpClient.ScrapeYandexSearchCtx ctx query opts s
       = ([], s, Returns (None, Some err))
     ∧ SerpClient.ScrapeYandexSearch query opts s
       = ([EvCancel default_ctx], s, Returns (None, Some err))
     ∧ SerpClientAsync.ScrapeYandexSearchCtx ctx query opts s
       = ([], made3 s, Returns (None, Some err))
     ∧ SerpClientAsync.ScrapeYandexSearch query opts s
       = ([EvCancel default_ctx], made3 s, Returns (None, Some err)))
  ∧ (∀ ctx url opts s err,
     url_refused url opts = Some err →
     SerpClient.ScrapeYandexUrlCtx ctx url opts s
       = ([], s, Returns (None, Some err))
     ∧ SerpClient.ScrapeYandexUrl url opts s
       = ([EvCancel default_ctx], s, Returns (None, Some err))
     ∧ SerpClientAsync.ScrapeYandexUrlCtx ctx url opts s
       = ([], made3 s, Returns (None, Some err))
     ∧ SerpClientAsync.ScrapeYandexUrl url opts s
       = ([EvCancel default_ctx], made3 s, Returns (None, Some err))).
Proof.
  split.
  - intros ctx query opts s err Href.
    unfold search_refused, search_options in Href. cbv zeta in Href.
    assert (∀ c, SerpClient.ScrapeYandexSearchCtx c query opts s
                 = ([], s, Returns (None, Some err))) as Hsync.
    { intros c. unfold SerpClient.ScrapeYandexSearchCtx. unfold_monad.
      by rewrite Href. }
    assert (∀ c, SerpClientAsync.ScrapeYandexSearchCtx c query opts s
                 = ([], made3 s, Returns (None, Some err))) as Hasync.
    { intros c. unfold SerpClientAsync.ScrapeYandexSearchCtx. unfold_monad.
      by rewrite Href. }
    split_and!; [done| |done|].
    + unfold SerpClient.ScrapeYandexSearch.
      by rewrite with_default_timeout_run, Hsync.
    + unfold SerpClientAsync.ScrapeYandexSearch.
      by rewrite with_default_timeout_run, Hasync.
  - intros ctx url opts s err Href.
    unfold url_refused, url_options in Href. cbv zeta in Href.
    assert (∀ c, SerpClient.ScrapeYandexUrlCtx c url opts s
                 = ([], s, Returns (None, Some err))) as Hsync.
    { intros c. unfold SerpClient.ScrapeYandexUrlCtx. unfold_monad.
      destruct (internal.ValidateUrl url "yandex"); [by simplify_eq|].
      by rewrite Href. }
    assert (∀ c, SerpClientAsync.ScrapeYandexUrlCtx c url opts s
                 = ([], made3 s, Returns (None, Some err))) as Hasync.
    { intros c. unfold SerpClientAsync.ScrapeYandexUrlCtx. unfold_monad.
      destruct (internal.ValidateUrl url "yandex"); [by simplify_eq|].
      by rewrite Href. }
    split_and!; [done| |done|].
    + unfold SerpClient.ScrapeYandexUrl.
      by rewrite with_default_timeout_run, Hsync.
    + unfold SerpClientAsync.ScrapeYandexUrl.
      by rewrite with_default_timeout_run, Hasync.
Qed.

(** *** The variadic options *)

(** [opts[len(opts)-1]], when there is one and it is not [nil]. *)
Lemma prepare_options_last {Opts} (zero : Opts) (opts : list (option Opts)) :
  prepare_options zero opts =
  match last opts with Some (Some opt) => opt | _ => zero end.
Proof.
  unfold prepare_options. rewrite last_lookup.
  replace (length opts - 1)%nat with (pred (length opts)) by lia.
  case_bool_decide as Hlen; [done|].
  destruct opts; [done|simpl in Hlen; lia].
Qed.

(* Looks a key up in a payload built by successive assignments. *)
Ltac lookup_payload :=
  repeat (rewrite lookup_insert_ne by done);
  first [apply lookup_insert_eq | apply lookup_empty].

Lemma marshalled_app tr tr' :
  marshalled (tr ++ tr') = marshalled tr ++ marshalled tr'.
Proof. apply omap_app. Qed.

Lemma marshalled_handshake rc tr :
  Forall (handshake_event rc) tr → marshalled tr = [].
Proof. induction 1 as [|ev tr [] _ IH]; [done|done|done]. Qed.

Lemma marshalled_run payload jsonPayload g tr :
  marshalled (EvMarshal payload :: EvGetJobID jsonPayload :: EvGo g :: tr)
  = payload :: marshalled tr.
Proof. reflexivity. Qed.

(* The fields of a payload, one after the other. *)
Ltac fields :=
  let Hin := fresh "Hin" in
  intros ?key ?value Hin;
  repeat (apply elem_of_cons in Hin as [Hin|Hin];
          [injection Hin as -> ->; cbn [fmap option_fmap option_map];
           lookup_payload|]);
  by apply elem_of_nil in Hin.

Lemma sync_search_run_with ctx query opts s :
  search_run_with (last_or_zero YandexSearchOpts.zero opts)
    (SerpClient.ScrapeYandexSearchCtx ctx query opts s).
Proof.
  unfold search_run_with, run_with, search_defaults, last_or_zero.
  unfold SerpClient.ScrapeYandexSearchCtx. rewrite prepare_options_last.
  unfold_monad.
  destruct (YandexSearchOpts_checkParameterValidity _) as [err|]; [done|].
  cbn [YandexSearchOpts.ParseInstructions].
  destruct (YandexSearchOpts.ParseInstructions _) as [instructions|].
  all: destruct (Marshal _) as [jsonPayload|?err];
    [destruct (Req _ _ _) as [httpResp|?err];
     [destruct (GetResp _ _ _) as [resp|?err]|]|].
  all: cbn [fst snd app].
  all: (split; [eexists; split; [reflexivity|fields] | intros; elems]).
Qed.

Lemma async_search_run_with ctx query opts s :
  search_run_with (last_or_zero YandexSearchOpts.zero opts)
    (SerpClientAsync.ScrapeYandexSearchCtx ctx query opts s).
Proof.
  unfold search_run_with, run_with, search_defaults, last_or_zero.
  unfold SerpClientAsync.ScrapeYandexSearchCtx. rewrite prepare_options_last.
  unfold_monad.
  destruct (YandexSearchOpts_checkParameterValidity _) as [err|]; [done|].
  cbn [YandexSearchOpts.ParseInstructions YandexSearchOpts.PollInterval].
  destruct (YandexSearchOpts.ParseInstructions _) as [instructions|].
  all: destruct (Marshal _) as [jsonPayload|?err];
    [destruct (GetJobID _) as [jobID|?err];
     [destruct_handshake;
      apply handshake_events in Hrest as (tr' & -> & Htr')|]|].
  all: cbn [fst snd app]; rewrite ?marshalled_run, ?(marshalled_handshake _ _ Htr').
  all: (split; [eexists; split; [reflexivity|fields] | intros; by elems]).
Qed.

Lemma sync_url_run_with ctx url opts s :
  url_run_with url (last_or_zero YandexUrlOpts.zero opts)
    (SerpClient.ScrapeYandexUrlCtx ctx url opts s).
Proof.
  unfold url_run_with, run_with, url_defaults, last_or_zero. intros Hurl.
  unfold SerpClient.ScrapeYandexUrlCtx. rewrite prepare_options_last, Hurl.
  unfold_monad.
  destruct (YandexUrlOpts_checkParameterValidity _) as [err|]; [done|].
  cbn [YandexUrlOpts.ParseInstructions].
  destruct (YandexUrlOpts.ParseInstructions _) as [instructions|].
  all: destruct (Marshal _) as [jsonPayload|?err];
    [destruct (Req _ _ _) as [httpResp|?err];
     [destruct (GetResp _ _ _) as [resp|?err]|]|].
  all: cbn [fst snd app].
  all: (split; [eexists; split; [reflexivity|fields] | intros; elems]).
Qed.

Lemma async_url_run_with ctx url opts s :
  url_run_with url (last_or_zero YandexUrlOpts.zero opts)
    (SerpClientAsync.ScrapeYandexUrlCtx ctx url opts s).
Proof.
  unfold url_run_with, run_with, url_defaults, last_or_zero. intros Hurl.
  unfold SerpClientAsync.ScrapeYandexUrlCtx. rewrite prepare_options_last.
  unfold_monad. rewrite Hurl.
  destruct (YandexUrlOpts_checkParameterValidity _) as [err|]; [done|].
  cbn [YandexUrlOpts.ParseInstructions YandexUrlOpts.PollInterval].
  destruct (YandexUrlOpts.ParseInstructions _) as [instructions|].
  all: destruct (Marshal _) as [jsonPayload|?err];
    [destruct (GetJobID _) as [jobID|?err];
     [destruct_handshake;
      apply handshake_events in Hrest as (tr' & -> & Htr')|]|].
  all: cbn [fst snd app]; rewrite ?marshalled_run, ?(marshalled_handshake _ _ Htr').
  all: (split; [eexists; split; [reflexivity|fields] | intros; by elems]).
Qed.

(** What is seen of the options in the run of a body is seen in its run
    under the default timeout. *)
Lemma run_with_default_timeout {X} refused fields pollInterval
    (f : context.Context → M (option X * option error)) s :
  run_with refused fields pollInterval (f default_ctx s) →
  run_with refused fields pollInterval (with_default_timeout f s).
Proof.
  unfold run_with. rewrite with_default_timeout_run.
  destruct (f default_ctx s) as [[tr s'] [a|]]; [|done].
  destruct refused as [err|]; [done|]. cbn [fst snd].
  intros [(payload & Hm & Hfields) Hgo]. split.
  - exists payload. split; [|done]. by rewrite marshalled_app, Hm.
  - intros c j i h ec Hin. elems. eauto.
Qed.

(** C10.  Every entry point works with the last element of its variadic
    options and with no other: the options it prepares are the last
    element, or the zero-valued options if the list is empty or its last
    element is [nil]; two lists with the same last element give the same
    run; and what a run shows of the options is that element with the
    defaults set, which is validated, whose fields the one marshalled
    payload holds, and whose poll interval the poller is given. *)
Theorem options_last_only :
  (∀ ctx query,
     last_only YandexSearchOpts.zero (SerpClient.ScrapeYandexSearchCtx ctx query)
     ∧ last_only YandexSearchOpts.zero
         (SerpClientAsync.ScrapeYandexSearchCtx ctx query))
  ∧ (∀ query,
     last_only YandexSearchOpts.zero (SerpClient.ScrapeYandexSearch query)
     ∧ last_only YandexSearchOpts.zero (SerpClientAsync.ScrapeYandexSearch query))
  ∧ (∀ ctx url,
     last_only YandexUrlOpts.zero (SerpClient.ScrapeYandexUrlCtx ctx url)
     ∧ last_only YandexUrlOpts.zero (SerpClientAsync.ScrapeYandexUrlCtx ctx url))
  ∧ (∀ url,
     last_only YandexUrlOpts.zero (SerpClient.ScrapeYandexUrl url)
     ∧ last_only YandexUrlOpts.zero (SerpClientAsync.ScrapeYandexUrl url))
  ∧ (∀ Opts (zero : Opts) opts,
     prepare_options zero opts = last_or_zero zero opts)
  ∧ (∀ ctx query opts s,
     let opt := last_or_zero YandexSearchOpts.zero opts in
     search_run_with opt (SerpClient.ScrapeYandexSearchCtx ctx query opts s)
     ∧ search_run_with opt (SerpClient.ScrapeYandexSearch query opts s)
     ∧ search_run_with opt (SerpClientAsync.ScrapeYandexSearchCtx ctx query opts s)
     ∧ search_run_with opt (SerpClientAsync.ScrapeYandexSearch query opts s))
  ∧ (∀ ctx url opts s,
     let opt := last_or_zero YandexUrlOpts.zero opts in
     url_run_with url opt (SerpClient.ScrapeYandexUrlCtx ctx url opts s)
     ∧ url_run_with url opt (SerpClient.ScrapeYandexUrl url opts s)
     ∧ url_run_with url opt (SerpClientAsync.ScrapeYandexUrlCtx ctx url opts s)
     ∧ url_run_with url opt (SerpClientAsync.ScrapeYandexUrl url opts s)).
Proof.
  split_and!;
    [ intros; split; split;
      unfold SerpClient.ScrapeYandexSearch, SerpClientAsync.ScrapeYandexSearch,
        SerpClient.ScrapeYandexUrl, SerpClientAsync.ScrapeYandexUrl,
        SerpClient.ScrapeYandexSearchCtx, SerpClientAsync.ScrapeYandexSearchCtx,
        SerpClient.ScrapeYandexUrlCtx, SerpClientAsync.ScrapeYandexUrlCtx;
      first [ intros opts opts' Hlast; rewrite !prepare_options_last, Hlast
            | intros opts [->|Hlast]; rewrite !prepare_options_last, ?Hlast ];
      reflexivity .. | | | ].
  - intros Opts zero opts. apply prepare_options_last.
  - intros ctx query opts s opt. split_and!.
    + apply sync_search_run_with.
    + apply run_with_default_timeout, sync_search_run_with.
    + apply async_search_run_with.
    + apply run_with_default_timeout, async_search_run_with.
  - intros ctx url opts s opt. split_and!.
    + apply sync_url_run_with.
    + intros Hurl. apply run_with_default_timeout. by apply sync_url_run_with.
    + apply async_url_run_with.
    + intros Hurl. apply run_with_default_timeout. by apply async_url_run_with.
Qed.

(** *** The payload of a request with parsing instructions *)

(** With parsing instructions, the synchronous search marshals a payload
    that has [parse] set. *)
Lemma sync_search_payload_parse ctx query opts s instructions payload :
  YandexSearchOpts.ParseInstructions
    (prepare_options YandexSearchOpts.zero opts) = Some instructions →
  EvMarshal payload ∈ (SerpClient.ScrapeYandexSearchCtx ctx query opts s).1.1 →
  payload !! "parse" = Some (JBool true)
  ∧ payload !! "parsing_instructions" = Some (JObj instructions).
Proof.
  intros Hpi Hin.
  destruct (SerpClient.ScrapeYandexSearchCtx _ _ _ _) as [[tr s'] r] eqn:Hrun.
  cbn [fst] in Hin. revert Hrun.
  unfold SerpClient.ScrapeYandexSearchCtx. unfold_monad.
  cbn [YandexSearchOpts.ParseInstructions]. rewrite Hpi.
  destruct (YandexSearchOpts_checkParameterValidity _) as [err|];
    [intros ?; simplify_eq; elems|].
  destruct (Marshal _) as [jsonPayload|err]; [|intros ?; simplify_eq; elems].
  2: { split; lookup_payload. }
  destruct (Req _ _ _) as [httpResp|err]; [|intros ?; simplify_eq; elems].
  2: { split; lookup_payload. }
  destruct (GetResp _ _ _) as [resp|err]; intros ?; simplify_eq; elems;
    split; lookup_payload.
Qed.

(** So does the asynchronous request for a URL. *)
Lemma async_url_payload_parse ctx url opts s instructions payload :
  YandexUrlOpts.ParseInstructions
    (prepare_options YandexUrlOpts.zero opts) = Some instructions →
  EvMarshal payload ∈ (SerpClientAsync.ScrapeYandexUrlCtx ctx url opts s).1.1 →
  payload !! "parse" = Some (JBool true)
  ∧ payload !! "parsing_instructions" = Some (JObj instructions).
Proof.
  intros Hpi Hin.
  destruct (SerpClientAsync.ScrapeYandexUrlCtx _ _ _ _) as [[tr s'] r] eqn:Hrun.
  cbn [fst] in Hin. revert Hrun.
  unfold SerpClientAsync.ScrapeYandexUrlCtx. unfold_monad.
  cbn [YandexUrlOpts.ParseInstructions]. rewrite Hpi.
  destruct (internal.ValidateUrl _ _) as [err|]; [intros ?; simplify_eq; elems|].
  destruct (YandexUrlOpts_checkParameterValidity _) as [err|];
    [intros ?; simplify_eq; elems|].
  destruct (Marshal _) as [jsonPayload|err]; [|intros ?; simplify_eq; elems].
  2: { split; lookup_payload. }
  destruct (GetJobID _) as [jobID|err]; [|intros ?; simplify_eq; elems].
  2: { split; lookup_payload. }
  destruct_handshake. apply handshake_events in Hrest as (tr' & -> & Htr').
  intros ?; simplify_eq. elems. split; lookup_payload.
Qed.

(** C3.  What the code does where the claim asks for [parse: true]: with
    parsing instructions, the payload that the asynchronous search hands
    to [json.Marshal] holds the instructions but no key [parse]. *)
Theorem async_search_payload_lacks_parse ctx query opts s instructions payload :
  YandexSearchOpts.ParseInstructions
    (prepare_options YandexSearchOpts.zero opts) = Some instructions →
  EvMarshal payload ∈ (SerpClientAsync.ScrapeYandexSearchCtx ctx query opts s).1.1 →
  payload !! "parse" = None
  ∧ payload !! "parsing_instructions" = Some (JObj instructions).
Proof.
  intros Hpi Hin.
  destruct (SerpClientAsync.ScrapeYandexSearchCtx _ _ _ _) as [[tr s'] r] eqn:Hrun.
  cbn [fst] in Hin. revert Hrun.
  unfold SerpClientAsync.ScrapeYandexSearchCtx. unfold_monad.
  cbn [YandexSearchOpts.ParseInstructions]. rewrite Hpi.
  destruct (YandexSearchOpts_checkParameterValidity _) as [err|];
    [intros ?; simplify_eq; elems|].
  destruct (Marshal _) as [jsonPayload|err]; [|intros ?; simplify_eq; elems].
  2: { split; lookup_payload. }
  destruct (GetJobID _) as [jobID|err]; [|intros ?; simplify_eq; elems].
  2: { split; lookup_payload. }
  destruct_handshake. apply handshake_events in Hrest as (tr' & -> & Htr').
  intros ?; simplify_eq. elems. split; lookup_payload.
Qed.

(** A search whose options pass the validation marshals a payload. *)
Lemma async_search_marshals ctx query opts s :
  search_refused opts = None →
  ∃ payload tr,
    (SerpClientAsync.ScrapeYandexSearchCtx ctx query opts s).1.1
    = EvMarshal payload :: tr.
Proof.
  intros Href. unfold search_refused, search_options in Href. cbv zeta in Href.
  unfold SerpClientAsync.ScrapeYandexSearchCtx. unfold_monad. rewrite Href.
  destruct (YandexSearchOpts.ParseInstructions _).
  all: destruct (Marshal _); [|by eexists _, _].
  all: destruct (GetJobID _); [|by eexists _, _].
  all: destruct_handshake; by eexists _, _.
Qed.

(** ** Further properties *)

(** *** [InList] *)

Lemma InList_elem (val : string) (list : list string) :
  internal.InList val list = true ↔ val ∈ list.
Proof.
  induction list as [|item rest IH]; simpl.
  - split; [discriminate | by intros ?%elem_of_nil].
  - rewrite elem_of_cons. destruct (decide (item = val)) as [->|Hne].
    + split; auto.
    + rewrite IH. split; [auto | intros [?|?]; [congruence | done]].
Qed.

(** X1.  At strings, [InList] answers [true] exactly for the values
    that occur in the slice. *)
Theorem InList_spec (val : string) (list : list string) :
  internal.InList val list = true ↔ val ∈ list.
Proof. apply InList_elem. Qed.

(** *** [ValidateUrl] and the expected host *)

Lemma append_assoc (s t u : string) : (s +:+ t) +:+ u = s +:+ t +:+ u.
Proof.
  induction s as [|c s IH]; [done|]. by rewrite !append_cons, IH.
Qed.

(** X2.  A URL that [ValidateUrl] accepts for a host is accepted for
    every substring of that host; in particular for the empty host,
    which every URL with a scheme and a host passes. *)
Theorem ValidateUrl_host_substring (inputUrl host host' a b : string) :
  internal.ValidateUrl inputUrl host = None →
  host = a +:+ host' +:+ b →
  internal.ValidateUrl inputUrl host' = None
  ∧ internal.ValidateUrl inputUrl "" = None.
Proof.
  unfold internal.ValidateUrl. intros Hacc ->.
  destruct (decide (inputUrl = "")); [done|].
  destruct (url.ParseRequestURI inputUrl) as [u|]; [|done].
  destruct (decide (url.Scheme u = "")); [done|].
  destruct (decide (url.Host u = "")); [done|].
  destruct (strings.Contains (url.Host u) (a +:+ host' +:+ b)) eqn:Hc; [|done].
  apply Contains_spec in Hc as (a0 & b0 & Hhost).
  assert (strings.Contains (url.Host u) host' = true) as ->.
  { apply Contains_spec. exists (a0 +:+ a), (b +:+ b0).
    by rewrite Hhost, !append_assoc. }
  assert (strings.Contains (url.Host u) "" = true) as ->.
  { apply Contains_spec. by exists "", (url.Host u). }
  done.
Qed.

(** *** [checkParameterValidity] *)

(** X3.  The options of a search are valid exactly when the domain is an
    accepted one, the locale is empty or an accepted one, the user agent
    is valid, limit, pages and start page are positive, and the parsing
    instructions, if any, are valid. *)
Theorem YandexSearchOpts_valid_iff (opt : YandexSearchOpts.t) :
  YandexSearchOpts_checkParameterValidity opt = None ↔
    YandexSearchOpts.Domain opt ∈ YandexSearchAcceptedDomainParameters
    ∧ (YandexSearchOpts.Locale opt = ""
       ∨ YandexSearchOpts.Locale opt ∈ YandexSearchAcceptedLocaleParameters)
    ∧ oxylabs.IsUserAgentValid (YandexSearchOpts.UserAgent opt) = true
    ∧ 0 < YandexSearchOpts.Limit opt
    ∧ 0 < YandexSearchOpts.Pages opt
    ∧ 0 < YandexSearchOpts.StartPage opt
    ∧ ∀ instructions,
        YandexSearchOpts.ParseInstructions opt = Some instructions →
        oxylabs.ValidateParseInstructions instructions = None.
Proof.
  unfold YandexSearchOpts_checkParameterValidity.
  assert (∀ val (l : list oxylabs.Domain),
            internal.InList val l = true ↔ val ∈ l) as Hdom by apply InList_elem.
  assert (∀ val (l : list oxylabs.Locale),
            internal.InList val l = true ↔ val ∈ l) as Hloc by apply InList_elem.
  rewrite <-Hdom, <-Hloc. clear Hdom Hloc.
  destruct (internal.InList (YandexSearchOpts.Domain opt) _); cbn [negb];
    [|split; [done|intros (? & _); done]].
  assert ((YandexSearchOpts.Locale opt = ""
           ∨ internal.InList (YandexSearchOpts.Locale opt)
               YandexSearchAcceptedLocaleParameters = true)
          ↔ negb (bool_decide (YandexSearchOpts.Locale opt = ""))
            && negb (internal.InList (YandexSearchOpts.Locale opt)
                       YandexSearchAcceptedLocaleParameters) = false) as ->.
  { case_bool_decide; destruct (internal.InList _ _); cbn [negb andb];
      intuition congruence. }
  destruct (_ && _); [split; [done|intros (_ & ? & _); done]|].
  destruct (oxylabs.IsUserAgentValid _); cbn [negb];
    [|split; [done|intros (_ & _ & ? & _); done]].
  destruct (Z.leb_spec (YandexSearchOpts.Limit opt) 0); cbn [orb];
    [split; [done|intros (_ & _ & _ & ? & _); lia]|].
  destruct (Z.leb_spec (YandexSearchOpts.Pages opt) 0); cbn [orb];
    [split; [done|intros (_ & _ & _ & _ & ? & _); lia]|].
  destruct (Z.leb_spec (YandexSearchOpts.StartPage opt) 0); cbn [orb];
    [split; [done|intros (_ & _ & _ & _ & _ & ? & _); lia]|].
  destruct (YandexSearchOpts.ParseInstructions opt) as [i|].
  - destruct (oxylabs.ValidateParseInstructions i) eqn:Hv.
    + split; [done|]. intros (_ & _ & _ & _ & _ & _ & Hi).
      specialize (Hi i eq_refl). congruence.
    + split; [|done]. intros _. split_and!; auto.
      intros ? [= <-]. done.
  - split; [|done]. intros _. split_and!; auto. done.
Qed.

(** X4.  The options of a URL request are valid exactly when the user
    agent is valid, the render is empty or valid, and the parsing
    instructions, if any, are valid. *)
Theorem YandexUrlOpts_valid_iff (opt : YandexUrlOpts.t) :
  YandexUrlOpts_checkParameterValidity opt = None ↔
    oxylabs.IsUserAgentValid (YandexUrlOpts.UserAgent opt) = true
    ∧ (YandexUrlOpts.Render opt = ""
       ∨ oxylabs.IsRenderValid (YandexUrlOpts.Render opt) = true)
    ∧ ∀ instructions,
        YandexUrlOpts.ParseInstructions opt = Some instructions →
        oxylabs.ValidateParseInstructions instructions = None.
Proof.
  unfold YandexUrlOpts_checkParameterValidity.
  destruct (oxylabs.IsUserAgentValid _); cbn [negb];
    [|split; [done|intros (? & _); done]].
  assert ((YandexUrlOpts.Render opt = ""
           ∨ oxylabs.IsRenderValid (YandexUrlOpts.Render opt) = true)
          ↔ negb (bool_decide (YandexUrlOpts.Render opt = ""))
            && negb (oxylabs.IsRenderValid (YandexUrlOpts.Render opt)) = false)
    as ->.
  { case_bool_decide; destruct (oxylabs.IsRenderValid _); cbn [negb andb];
      intuition congruence. }
  destruct (_ && _); [split; [done|intros (_ & ? & _); done]|].
  destruct (YandexUrlOpts.ParseInstructions opt) as [i|].
  - destruct (oxylabs.ValidateParseInstructions i) eqn:Hv.
    + split; [done|]. intros (_ & _ & Hi). specialize (Hi i eq_refl). congruence.
    + split; [|done]. intros _. split_and!; auto. intros ? [= <-]. done.
  - split; [|done]. intros _. split_and!; auto. done.
Qed.

(** *** The synchronous client: what a call does and returns *)

Lemma sync_call_run e s tr s' r :
  sync_call e s = (tr, s', r) →
  ∃ tr0, sync_run (call_ctx e) s tr0 s' r ∧ tr = tr0 ++ deferred e r.
Proof.
  destruct e as [ctx query opts|query opts|ctx url opts|url opts]; simpl.
  - intros Hrun. exists tr. rewrite app_nil_r.
    eauto using sync_ScrapeYandexSearchCtx_run.
  - unfold SerpClient.ScrapeYandexSearch. rewrite with_default_timeout_run.
    destruct (SerpClient.ScrapeYandexSearchCtx _ _ _ _)
      as [[tr0 s0] [a|]] eqn:Hrun; intros ?; simplify_eq;
      (eexists; split; [by eapply sync_ScrapeYandexSearchCtx_run|]);
      by rewrite ?app_nil_r.
  - intros Hrun. exists tr. rewrite app_nil_r.
    eauto using sync_ScrapeYandexUrlCtx_run.
  - unfold SerpClient.ScrapeYandexUrl. rewrite with_default_timeout_run.
    destruct (SerpClient.ScrapeYandexUrlCtx _ _ _ _)
      as [[tr0 s0] [a|]] eqn:Hrun; intros ?; simplify_eq;
      (eexists; split; [by eapply sync_ScrapeYandexUrlCtx_run|]);
      by rewrite ?app_nil_r.
Qed.

Lemma requests_app tr tr' : requests (tr ++ tr') = requests tr ++ requests tr'.
Proof. apply omap_app. Qed.

Lemma requests_deferred {A} e (r : result A) : requests (deferred e r) = [].
Proof. by destruct e, r. Qed.

Lemma marshalled_deferred {A} e (r : result A) : marshalled (deferred e r) = [].
Proof. by destruct e, r. Qed.

(** X5.  A call on the synchronous client always returns, with a
    response or with an error and never both; it leaves the channels and
    goroutines of the program as they were, starts no goroutine, reads
    no channel, submits no job, and sends at most one request, a POST
    under the context of the call. *)
Theorem sync_call_returns (e : async_entry) (s : state) :
  ∃ tr res,
    sync_call e s = (tr, s, Returns res)
    ∧ ((∃ err, res = (None, Some err)) ∨ (∃ resp, res = (Some resp, None)))
    ∧ (requests tr = []
       ∨ ∃ jsonPayload, requests tr = [(call_ctx e, jsonPayload, "POST")])
    ∧ ∀ ev, ev ∈ tr →
        (∀ g, ev ≠ EvGo g) ∧ (∀ c m, ev ≠ EvRecv c m)
        ∧ (∀ jsonPayload, ev ≠ EvGetJobID jsonPayload).
Proof.
  destruct (sync_call e s) as [[tr s'] r] eqn:Hcall.
  apply sync_call_run in Hcall as (tr0 & Hrun & ->).
  destruct Hrun; eexists _, _; (split; [reflexivity|]).
  all: rewrite requests_app, requests_deferred, app_nil_r.
  all: split_and!; eauto; intros ev Hev; elems; done.
Qed.

Lemma sync_search_response ctx query opts s tr s' resp :
  SerpClient.ScrapeYandexSearchCtx ctx query opts s
    = (tr, s', Returns (Some resp, None)) →
  search_refused opts = None
  ∧ ∃ payload jsonPayload httpResp,
      tr = [EvMarshal payload; EvReq ctx jsonPayload "POST"]
      ∧ Marshal payload = inl jsonPayload
      ∧ Req ctx jsonPayload "POST" = inl httpResp
      ∧ GetResp httpResp (custom_parser (SearchCtx ctx query opts))
          (custom_parser (SearchCtx ctx query opts)) = inl resp.
Proof.
  unfold custom_parser, call_instructions, search_refused, search_options.
  unfold SerpClient.ScrapeYandexSearchCtx. unfold_monad.
  cbn [YandexSearchOpts.ParseInstructions].
  destruct (YandexSearchOpts_checkParameterValidity _) as [err|]; [done|].
  destruct (YandexSearchOpts.ParseInstructions _) as [instructions|].
  all: destruct (Marshal _) as [jsonPayload|err] eqn:Hm; [|done].
  all: destruct (Req _ _ _) as [httpResp|err] eqn:Hq; [|done].
  all: destruct (GetResp _ _ _) as [resp'|err] eqn:Hr; [|done].
  all: intros ?; simplify_eq; split; [done|]; by eexists _, _, _.
Qed.

Lemma sync_url_response ctx url opts s tr s' resp :
  SerpClient.ScrapeYandexUrlCtx ctx url opts s
    = (tr, s', Returns (Some resp, None)) →
  url_refused url opts = None
  ∧ ∃ payload jsonPayload httpResp,
      tr = [EvMarshal payload; EvReq ctx jsonPayload "POST"]
      ∧ Marshal payload = inl jsonPayload
      ∧ Req ctx jsonPayload "POST" = inl httpResp
      ∧ GetResp httpResp (custom_parser (UrlCtx ctx url opts))
          (custom_parser (UrlCtx ctx url opts)) = inl resp.
Proof.
  unfold custom_parser, call_instructions, url_refused, url_options.
  unfold SerpClient.ScrapeYandexUrlCtx. unfold_monad.
  cbn [YandexUrlOpts.ParseInstructions].
  destruct (internal.ValidateUrl _ _) as [err|]; [done|].
  destruct (YandexUrlOpts_checkParameterValidity _) as [err|]; [done|].
  destruct (YandexUrlOpts.ParseInstructions _) as [instructions|].
  all: destruct (Marshal _) as [jsonPayload|err] eqn:Hm; [|done].
  all: destruct (Req _ _ _) as [httpResp|err] eqn:Hq; [|done].
  all: destruct (GetResp _ _ _) as [resp'|err] eqn:Hr; [|done].
  all: intros ?; simplify_eq; split; [done|]; by eexists _, _, _.
Qed.

(** X6.  When a call on the synchronous client returns a response, the
    input passed the validation, one payload was marshalled and sent in
    one POST under the context of the call, and the response is what
    [GetResp] makes of the answer, with both of its flags set exactly
    when the options hold parsing instructions. *)
Theorem sync_response (e : async_entry) (s : state) tr s' resp :
  sync_call e s = (tr, s', Returns (Some resp, None)) →
  call_refused e = None
  ∧ ∃ payload jsonPayload httpResp,
      marshalled tr = [payload]
      ∧ Marshal payload = inl jsonPayload
      ∧ requests tr = [(call_ctx e, jsonPayload, "POST")]
      ∧ Req (call_ctx e) jsonPayload "POST" = inl httpResp
      ∧ GetResp httpResp (custom_parser e) (custom_parser e) = inl resp.
Proof.
  destruct e as [ctx query opts|query opts|ctx url opts|url opts];
    cbn [sync_call call_refused call_ctx].
  - intros (Href & p & b & h & -> & ? & ? & ?)%sync_search_response.
    split; [done|]. by exists p, b, h.
  - unfold SerpClient.ScrapeYandexSearch. rewrite with_default_timeout_run.
    destruct (SerpClient.ScrapeYandexSearchCtx _ _ _ _)
      as [[tr0 s0] [a|]] eqn:Hrun; intros ?; simplify_eq.
    apply sync_search_response in Hrun
      as (Href & p & b & h & -> & ? & ? & ?).
    split; [done|]. by exists p, b, h.
  - intros (Href & p & b & h & -> & ? & ? & ?)%sync_url_response.
    split; [done|]. by exists p, b, h.
  - unfold SerpClient.ScrapeYandexUrl. rewrite with_default_timeout_run.
    destruct (SerpClient.ScrapeYandexUrlCtx _ _ _ _)
      as [[tr0 s0] [a|]] eqn:Hrun; intros ?; simplify_eq.
    apply sync_url_response in Hrun
      as (Href & p & b & h & -> & ? & ? & ?).
    split; [done|]. by exists p, b, h.
Qed.

(** X7.  On the synchronous client an error of [json.Marshal] comes
    back wrapped, and no request is sent; an error of the transport
    comes back as it is. *)
Theorem sync_errors_returned (e : async_entry) (s : state) tr s' r :
  sync_call e s = (tr, s', r) →
  (∀ payload err,
     EvMarshal payload ∈ tr → Marshal payload = inr err →
     r = Returns (None, Some (Errorf "error marshalling payload: " err))
     ∧ requests tr = [])
  ∧ (∀ ctx jsonPayload method err,
       EvReq ctx jsonPayload method ∈ tr →
       Req ctx jsonPayload method = inr err →
       r = Returns (None, Some err)).
Proof.
  intros (tr0 & Hrun & ->)%sync_call_run.
  destruct Hrun; split.
  - intros p e' Hin He. elems.
  - intros c b m e' Hin He. elems.
  - intros p e' Hin He. rewrite requests_app, requests_deferred.
    elems. split; [congruence|done].
  - intros c b m e' Hin He. elems.
  - intros p e' Hin He. elems. congruence.
  - intros c b m e' Hin He. elems. congruence.
  - intros p e' Hin He. elems. congruence.
  - intros c b m e' Hin He. elems. congruence.
  - intros p e' Hin He. elems. congruence.
  - intros c b m e' Hin He. elems. congruence.
Qed.

(** *** The asynchronous client: channels *)

Lemma handshake_result ctx jobID pollInterval flag h rc ec s tr s' r :
  handshake ctx jobID pollInterval flag h rc ec s = (tr, s', r) →
  next_chan s' = next_chan s
  ∧ ∀ c err, r = Returns (Some c, err) → c = rc.
Proof.
  unfold_handshake.
  destruct (rendezvous ec _) as [[[err| |] gs]|]; reduce;
    try (intros ?; simplify_eq; split; [done|]; by intros ?? [=]).
  destruct err as [err|]; reduce;
    [intros ?; simplify_eq; split; [done|]; by intros ?? [=]|].
  destruct (rendezvous h _) as [[[| httpResp |] gs']|]; reduce;
    try (intros ?; simplify_eq; split; [done|]; by intros ?? [=]).
  destruct (GetResp _ _ _); reduce;
    intros ?; simplify_eq; (split; [done|]); by intros ?? [=].
Qed.

Lemma call_channels e s tr s' r :
  call e s = (tr, s', r) →
  next_chan s' = S (S (S (next_chan s)))
  ∧ ∀ c err, r = Returns (Some c, err) → c = S (next_chan s).
Proof.
  intros (tr0 & Hrun & ->)%call_run.
  destruct Hrun as [ | | | ???????? Hm Hj Hh];
    try (split; [done|]; by intros ?? [=]).
  by apply handshake_result in Hh.
Qed.

(** X8.  Every call of an asynchronous entry point makes three channels,
    whatever it returns and also when the input is refused. *)
Theorem call_makes_three_channels (e : async_entry) (s : state) :
  next_chan (call e s).1.2 = S (S (S (next_chan s))).
Proof.
  destruct (call e s) as [[tr s'] r] eqn:Hcall.
  by apply call_channels in Hcall as [? _].
Qed.

(** X9.  The channel that a call returns is one that the call made, so a
    call made later in the program returns another channel. *)
Theorem calls_return_distinct_channels (e1 e2 : async_entry) (s1 s2 : state)
    tr1 s1' c1 err1 tr2 s2' c2 err2 :
  call e1 s1 = (tr1, s1', Returns (Some c1, err1)) →
  (next_chan s1' ≤ next_chan s2)%nat →
  call e2 s2 = (tr2, s2', Returns (Some c2, err2)) →
  (next_chan s1 ≤ c1 < next_chan s1')%nat ∧ (c1 < c2)%nat.
Proof.
  intros [Hn1 Hc1]%call_channels Hle [Hn2 Hc2]%call_channels.
  rewrite (Hc1 _ _ eq_refl), (Hc2 _ _ eq_refl). lia.
Qed.

(** *** The asynchronous client: the goroutines it leaves *)

Lemma pending_on_other c c' m : c ≠ c' → pending_on c [[(c', m)]] = [].
Proof.
  intros Hne. unfold pending_on. simpl.
  by rewrite filter_cons_False, filter_nil by (simpl; congruence).
Qed.

Lemma call_goroutines e s tr s' r :
  fresh_state s →
  call e s = (tr, s', r) →
  ∃ added,
    goroutines s' = goroutines s ++ added
    ∧ ∀ g c m, g ∈ added → (c, m) ∈ g →
        (next_chan s ≤ c < S (S (S (next_chan s))))%nat.
Proof.
  intros Hs (tr0 & Hrun & ->)%call_run.
  destruct Hrun as [ | | | ???????? Hm Hj Hh];
    try (exists []; split; [by rewrite app_nil_r|];
         by intros ??? ?%elem_of_nil).
  apply submitted_fresh in Hh as (tr' & gs' & -> & -> & Hh); [|done].
  cbn [goroutines].
  destruct Hh; first [ rewrite <-app_assoc | idtac ];
    (eexists; split; [reflexivity|]); intros g c m Hg Hc; elems.
  all: try (apply poller_script_elem in Hc; lia).
  elems. lia.
Qed.

(** X10.  A call from a fresh state leaves a fresh state: the sends it
    leaves pending are on the three channels it made. *)
Theorem call_keeps_fresh (e : async_entry) (s : state) :
  fresh_state s → fresh_state (call e s).1.2.
Proof.
  intros Hs. destruct (call e s) as [[tr s'] r] eqn:Hcall. cbn [fst snd].
  destruct (call_goroutines _ _ _ _ _ Hs Hcall) as (added & Hgs & Hadded).
  apply call_channels in Hcall as [Hn _].
  intros g c m Hg Hc. rewrite Hgs in Hg. rewrite Hn.
  apply elem_of_app in Hg as [Hg|Hg].
  - specialize (Hs g c m Hg Hc). lia.
  - specialize (Hadded g c m Hg Hc). lia.
Qed.

(** X11.  A call from a fresh state does not touch the channels that
    were there before: what is pending on them stays pending. *)
Theorem call_leaves_older_channels (e : async_entry) (s : state) (c : chan) :
  fresh_state s →
  (c < next_chan s)%nat →
  sends_on c (call e s).1.2 = sends_on c s.
Proof.
  intros Hs Hc. destruct (call e s) as [[tr s'] r] eqn:Hcall. cbn [fst snd].
  destruct (call_goroutines _ _ _ _ _ Hs Hcall) as (added & Hgs & Hadded).
  unfold sends_on. rewrite Hgs, pending_on_app.
  rewrite (pending_on_none c added), app_nil_r; [done|].
  intros g c' m Hg Hc'. specialize (Hadded g c' m Hg Hc'). lia.
Qed.

(** X12.  A call from a fresh state that blocks has submitted a job and
    started its poller, whose sends do not keep to the handshake; the
    deferred [cancel] of the entry points without a context is not
    run. *)
Theorem blocked_call_has_submitted (e : async_entry) (s : state) tr s' :
  fresh_state s →
  call e s = (tr, s', Blocks) →
  ∃ jsonPayload jobID pollInterval httpRespChan errChan,
    EvGetJobID jsonPayload ∈ tr
    ∧ GetJobID jsonPayload = inl jobID
    ∧ EvGo (GoPollJobStatus (call_ctx e) jobID pollInterval httpRespChan errChan)
        ∈ tr
    ∧ ¬ follows_handshake (PollJobStatus (call_ctx e) jobID pollInterval)
    ∧ ∀ ctx, EvCancel ctx ∉ tr.
Proof.
  intros Hs (tr0 & Hrun & ->)%call_run.
  assert (deferred e (@Blocks (option chan * option error)) = []) as ->
    by by destruct e.
  rewrite app_nil_r.
  remember Blocks as r eqn:Hr.
  destruct Hrun as [ | | | payload body jobID i flag trh sh rh Hm Hj Hh];
    [done..|].
  apply submitted_fresh in Hh as (tr' & gs' & -> & -> & Hh); [|done].
  exists body, jobID, i, (next_chan s), (S (S (next_chan s))).
  remember (PollJobStatus (call_ctx e) jobID i) as sends eqn:Hsends.
  split_and!; [by apply list_elem_of_further, list_elem_of_here | done
              | by do 2 apply list_elem_of_further; apply list_elem_of_here | |].
  - destruct Hh as [sends Hsil| |k Hno| |]; try done.
    + intros [(?&?&->)|(?&?&->)]; by eapply Hsil.
    + intros [(?&?&?)|(?&?&?)]; simplify_eq. by eapply Hno.
  - intros ctx Hin. destruct Hh; try done; elems.
Qed.

(** X13.  On the asynchronous client an error of [json.Marshal] comes
    back wrapped: no job is submitted, no goroutine is started, and the
    goroutines of the program are unchanged. *)
Theorem async_marshal_error_returned (e : async_entry) (s : state) tr s' r
    payload err :
  call e s = (tr, s', r) →
  EvMarshal payload ∈ tr →
  Marshal payload = inr err →
  r = Returns (None, Some (Errorf "error marshalling payload: " err))
  ∧ submitted tr = []
  ∧ (∀ g, EvGo g ∉ tr)
  ∧ goroutines s' = goroutines s.
Proof.
  intros (tr0 & Hrun & ->)%call_run Hin Herr.
  destruct Hrun as [ | p e0 Hm0 | | ???????? Hm Hj Hh].
  - elems.
  - assert (p = payload) as -> by (elems; done).
    assert (e0 = err) as -> by congruence.
    split_and!; [done| by destruct e | intros g Hg; elems | done].
  - elems. congruence.
  - apply handshake_events in Hh as (tr' & -> & Htr'). elems. congruence.
Qed.

(** *** The asynchronous client: what the poller is given *)

Lemma submitted_app tr tr' : submitted (tr ++ tr') = submitted tr ++ submitted tr'.
Proof. apply omap_app. Qed.

Lemma submitted_deferred {A} e (r : result A) : submitted (deferred e r) = [].
Proof. by destruct e, r. Qed.

Lemma async_search_poller ctx query opts s tr s' r c jobID i h ec :
  SerpClientAsync.ScrapeYandexSearchCtx ctx query opts s = (tr, s', r) →
  EvGo (GoPollJobStatus c jobID i h ec) ∈ tr →
  c = ctx
  ∧ i = YandexSearchOpts.PollInterval (prepare_options YandexSearchOpts.zero opts)
  ∧ h = next_chan s ∧ ec = S (S (next_chan s))
  ∧ ∃ jsonPayload, GetJobID jsonPayload = inl jobID ∧ submitted tr = [jsonPayload].
Proof.
  unfold SerpClientAsync.ScrapeYandexSearchCtx. unfold_monad.
  cbn [YandexSearchOpts.PollInterval].
  destruct (YandexSearchOpts_checkParameterValidity _) as [err|];
    [intros ??; simplify_eq; elems|].
  destruct (YandexSearchOpts.ParseInstructions _) as [instructions|].
  all: destruct (Marshal _) as [jsonPayload|err];
    [|intros ??; simplify_eq; elems].
  all: destruct (GetJobID _) as [j|err] eqn:Hj;
    [|intros ??; simplify_eq; elems].
  all: destruct_handshake; apply handshake_events in Hrest as (tr' & -> & Htr').
  all: intros ? Hin; simplify_eq; elems.
  all: split_and!; [done..|]; eexists; split; [done|].
  all: by rewrite submitted_run, (submitted_handshake _ _ Htr').
Qed.

Lemma async_url_poller ctx url opts s tr s' r c jobID i h ec :
  SerpClientAsync.ScrapeYandexUrlCtx ctx url opts s = (tr, s', r) →
  EvGo (GoPollJobStatus c jobID i h ec) ∈ tr →
  c = ctx
  ∧ i = YandexUrlOpts.PollInterval (prepare_options YandexUrlOpts.zero opts)
  ∧ h = next_chan s ∧ ec = S (S (next_chan s))
  ∧ ∃ jsonPayload, GetJobID jsonPayload = inl jobID ∧ submitted tr = [jsonPayload].
Proof.
  unfold SerpClientAsync.ScrapeYandexUrlCtx. unfold_monad.
  cbn [YandexUrlOpts.PollInterval].
  destruct (internal.ValidateUrl _ _) as [err|];
    [intros ??; simplify_eq; elems|].
  destruct (YandexUrlOpts_checkParameterValidity _) as [err|];
    [intros ??; simplify_eq; elems|].
  destruct (YandexUrlOpts.ParseInstructions _) as [instructions|].
  all: destruct (Marshal _) as [jsonPayload|err];
    [|intros ??; simplify_eq; elems].
  all: destruct (GetJobID _) as [j|err] eqn:Hj;
    [|intros ??; simplify_eq; elems].
  all: destruct_handshake; apply handshake_events in Hrest as (tr' & -> & Htr').
  all: intros ? Hin; simplify_eq; elems.
  all: split_and!; [done..|]; eexists; split; [done|].
  all: by rewrite submitted_run, (submitted_handshake _ _ Htr').
Qed.

(** X14.  The poller of a call is started with the context of the call,
    the job identifier that [GetJobID] returned for the one payload
    submitted, the first and the third channel that the call made, and
    the poll interval of the options as the caller gave it: the entry
    point applies no default to it. *)
Theorem poller_arguments (e : async_entry) (s : state) tr s' r
    ctx jobID pollInterval httpRespChan errChan :
  call e s = (tr, s', r) →
  EvGo (GoPollJobStatus ctx jobID pollInterval httpRespChan errChan) ∈ tr →
  ctx = call_ctx e
  ∧ pollInterval = call_poll_interval e
  ∧ httpRespChan = next_chan s ∧ errChan = S (S (next_chan s))
  ∧ ∃ jsonPayload, GetJobID jsonPayload = inl jobID ∧ submitted tr = [jsonPayload].
Proof.
  destruct e as [c query opts|query opts|c url opts|url opts];
    cbn [call call_ctx call_poll_interval].
  - apply async_search_poller.
  - unfold SerpClientAsync.ScrapeYandexSearch. rewrite with_default_timeout_run.
    destruct (SerpClientAsync.ScrapeYandexSearchCtx _ _ _ _)
      as [[tr0 s0] [a|]] eqn:Hrun; intros ? Hin; simplify_eq.
    + apply elem_of_app in Hin as [Hin|Hin]; [|elems].
      destruct (async_search_poller _ _ _ _ _ _ _ _ _ _ _ _ Hrun Hin)
        as (? & ? & ? & ? & b & ? & Hsub).
      split_and!; [done..|]. exists b. split; [done|].
      by rewrite submitted_app, Hsub.
    + by eapply async_search_poller.
  - apply async_url_poller.
  - unfold SerpClientAsync.ScrapeYandexUrl. rewrite with_default_timeout_run.
    destruct (SerpClientAsync.ScrapeYandexUrlCtx _ _ _ _)
      as [[tr0 s0] [a|]] eqn:Hrun; intros ? Hin; simplify_eq.
    + apply elem_of_app in Hin as [Hin|Hin]; [|elems].
      destruct (async_url_poller _ _ _ _ _ _ _ _ _ _ _ _ Hrun Hin)
        as (? & ? & ? & ? & b & ? & Hsub).
      split_and!; [done..|]. exists b. split; [done|].
      by rewrite submitted_app, Hsub.
    + by eapply async_url_poller.
Qed.

(** *** The payloads of the two clients *)

(** X15.  For a URL the two clients marshal the same payload: what the
    asynchronous client submits as a job is what the synchronous client
    sends as a request. *)
Theorem url_payload_same_on_both_clients (ctx ctx' : context.Context)
    (url : string) (opts : list (option YandexUrlOpts.t)) (s s0 : state) :
  marshalled (SerpClientAsync.ScrapeYandexUrlCtx ctx url opts s).1.1
  = marshalled (SerpClient.ScrapeYandexUrlCtx ctx' url opts s0).1.1.
Proof.
  unfold SerpClientAsync.ScrapeYandexUrlCtx, SerpClient.ScrapeYandexUrlCtx.
  unfold_monad.
  destruct (internal.ValidateUrl _ _) as [err|]; [done|].
  destruct (YandexUrlOpts_checkParameterValidity _) as [err|]; [done|].
  destruct (YandexUrlOpts.ParseInstructions _) as [instructions|].
  all: destruct (Marshal _) as [jsonPayload|?err]; [|done].
  all: destruct (Req _ _ _) as [httpResp|?err];
    [destruct (GetResp _ _ _) as [resp|?err]|].
  all: destruct (GetJobID _) as [jobID|?err]; [|done].
  all: destruct_handshake; apply handshake_events in Hrest as (tr' & -> & Htr').
  all: cbn [fst]; by rewrite marshalled_run, (marshalled_handshake _ _ Htr').
Qed.

(** X16.  For a search the payload that the asynchronous client marshals
    is the payload of the synchronous client without its key [parse]:
    the same payload when there are no parsing instructions. *)
Theorem search_payload_without_parse (ctx ctx' : context.Context)
    (query : string) (opts : list (option YandexSearchOpts.t)) (s s0 : state) :
  marshalled (SerpClientAsync.ScrapeYandexSearchCtx ctx query opts s).1.1
  = delete "parse"
      <$> marshalled (SerpClient.ScrapeYandexSearchCtx ctx' query opts s0).1.1.
Proof.
  unfold SerpClientAsync.ScrapeYandexSearchCtx, SerpClient.ScrapeYandexSearchCtx.
  unfold_monad.
  destruct (YandexSearchOpts_checkParameterValidity _) as [err|]; [done|].
  destruct (YandexSearchOpts.ParseInstructions _) as [instructions|].
  all: repeat match goal with
         | |- context [Marshal ?p] =>
             lazymatch goal with
             | H : Marshal p = _ |- _ => fail
             | _ => destruct (Marshal p) as [?jsonPayload|?err] eqn:?
             end
         end.
  all: repeat match goal with
         | |- context [Req ?c ?b ?m] => destruct (Req c b m) as [?httpResp|?err]
         | |- context [GetResp ?h ?a ?b] => destruct (GetResp h a b) as [?resp|?err]
         | |- context [GetJobID ?b] => destruct (GetJobID b) as [?jobID|?err]
         end.
  all: repeat (destruct_handshake;
               apply handshake_events in Hrest as (?tr' & -> & ?Htr')).
  all: cbn [fst]; rewrite ?marshalled_run; cbn [marshalled omap list_omap fmap list_fmap].
  all: repeat match goal with
         | H : Forall (handshake_event _) ?tr |- _ =>
             rewrite (marshalled_handshake _ _ H)
         end.
  all: f_equal; symmetry.
  all: rewrite ?delete_insert_ne by done; rewrite ?delete_insert_eq.
  all: rewrite ?delete_insert_ne by done; by rewrite delete_empty.
Qed.

End Runs.

(** ** Runs against the stub service *)

Section Examples.
#[local] Existing Instances stub.types stub.pkg stub.defaults stub.parser.

Lemma triple_eta {A B C} (x : A * B * C) : x = (x.1.1, x.1.2, x.2).
Proof. by destruct x as [[??]?]. Qed.

Lemma fresh_init : fresh_state stub.init.
Proof. intros g c m Hg. by apply elem_of_nil in Hg. Qed.

Lemma poll_done_follows_handshake submit ctx jobID pollInterval :
  follows_handshake
    (@PollJobStatus stub.types (stub.client submit stub.poll_done)
       ctx jobID pollInterval).
Proof.
  unfold follows_handshake. cbn. unfold stub.poll_done.
  destruct (context.Err ctx); [left|right]; eauto.
Qed.

(** C1 on a run: the job-creation endpoint answers 500. *)
Lemma submission_error_returned_witness :
  let Cl := stub.client (inr "500 Internal Server Error") stub.poll_done in
  let run := call (SearchCtx context.Background "adidas" []) stub.init in
  run.2 = Returns (None, Some "500 Internal Server Error")
  ∧ (∀ g, EvGo g ∉ run.1.1)
  ∧ goroutines run.1.2 = goroutines stub.init.
Proof.
  intros Cl run.
  apply (submission_error_returned (Cl := Cl)
           (SearchCtx context.Background "adidas" []) stub.init
           run.1.1 run.1.2 run.2 "{...}" "500 Internal Server Error").
  - apply triple_eta.
  - vm_compute. apply list_elem_of_further, list_elem_of_here.
  - reflexivity.
Defined.

(** C2 on a run: the job is done at the first poll, and the call
    returns channel 1, on which the response is pending. *)
Lemma error_or_channel_witness :
  let Cl := stub.client (inl "job-1") stub.poll_done in
  let run := call (SearchCtx context.Background "adidas" []) stub.init in
  run.2 ≠ Blocks
  ∧ ∃ c, run.2 = Returns (Some c, None)
         ∧ sends_on c run.1.2 = [@MResp stub.types "200 OK"].
Proof.
  intros Cl run.
  destruct (error_or_channel (Cl := Cl)
              (SearchCtx context.Background "adidas" []) stub.init
              run.1.1 run.1.2 run.2 fresh_init (triple_eta _))
    as [Hret Hblocks].
  split.
  - apply Hblocks. intros ctx jobID i. apply poll_done_follows_handshake.
  - destruct (Hret (Some 1%nat) None) as
      [(Hc & _)|(c & httpResp & flag & resp & s'' & Hc & _ & _ & Hsends & _)].
    + vm_compute. reflexivity.
    + discriminate Hc.
    + injection Hc as <-. exists 1%nat. split; [vm_compute; reflexivity|].
      rewrite Hsends. vm_compute in Hsends. by injection Hsends as <-.
Defined.

(** C3 on a run: a search with parsing instructions, on the
    asynchronous client. *)
Lemma async_search_payload_lacks_parse_witness :
  let Cl := stub.client (inl "job-1") stub.poll_done in
  let opt :=
    {| YandexSearchOpts.Domain := ""; YandexSearchOpts.StartPage := 0;
       YandexSearchOpts.Pages := 0; YandexSearchOpts.Limit := 0;
       YandexSearchOpts.Locale := ""; YandexSearchOpts.GeoLocation := "";
       YandexSearchOpts.UserAgent := ""; YandexSearchOpts.CallbackUrl := "";
       YandexSearchOpts.ParseInstructions := Some {[ "title" := JStr "//h1" ]};
       YandexSearchOpts.PollInterval := 0 |} in
  let run :=
    SerpClientAsync.ScrapeYandexSearchCtx context.Background "adidas"
      [Some opt] stub.init in
  ∃ payload, EvMarshal payload ∈ run.1.1 ∧ payload !! "parse" = None.
Proof.
  intros Cl opt run.
  destruct (async_search_marshals (Cl := Cl) context.Background "adidas"
              [Some opt] stub.init) as (payload & tr & Htr).
  { vm_compute. reflexivity. }
  assert (EvMarshal payload ∈ run.1.1) as Hin.
  { unfold run. rewrite Htr. apply list_elem_of_here. }
  exists payload. split; [exact Hin|].
  eapply proj1, (async_search_payload_lacks_parse (Cl := Cl)
                   context.Background "adidas" [Some opt] stub.init);
    [reflexivity | exact Hin].
Defined.

(** C4 as stated fails: the caller's context is cancelled before the
    call, the job is submitted all the same, and it is the poller that
    reports the cancellation. *)
Lemma cancelled_context_still_submits :
  let Cl := stub.client (inl "job-1") stub.poll_done in
  let ctx := context.WithCancel context.Background true in
  let run := call (SearchCtx ctx "adidas" []) stub.init in
  context.Err ctx = Some "context canceled"
  ∧ EvGetJobID "{...}" ∈ run.1.1
  ∧ @GetJobID stub.types Cl "{...}" = inl "job-1"
  ∧ EvGo (@GoPollJobStatus stub.types ctx "job-1" 0 0%nat 2%nat) ∈ run.1.1
  ∧ ¬ submission_honors_context.
Proof.
  intros Cl ctx run.
  assert (EvGetJobID "{...}" ∈ run.1.1) as Hin.
  { vm_compute. apply list_elem_of_further, list_elem_of_here. }
  split_and!; [reflexivity | exact Hin | reflexivity | |].
  - vm_compute. do 2 apply list_elem_of_further. apply list_elem_of_here.
  - intros Hclaim.
    destruct (Hclaim (SearchCtx ctx "adidas" []) stub.init
                run.1.1 run.1.2 run.2 "{...}" (triple_eta _))
      as (err & Herr & _); [discriminate | exact Hin | discriminate Herr].
Qed.

(** C5 on the same run: the error channel is read right after the
    poller is started, and its error is what the call returns. *)
Lemma error_channel_read_before_return_witness :
  let Cl := stub.client (inl "job-1") stub.poll_done in
  let ctx := context.WithCancel context.Background true in
  let run := call (SearchCtx ctx "adidas" []) stub.init in
  ∃ post',
    drop 3 run.1.1
    = EvRecv 2%nat (@MErr stub.types (Some "context canceled")) :: post'
    ∧ run.2 = Returns (None, Some "context canceled").
Proof.
  intros Cl ctx run.
  destruct (error_channel_read_before_return (Ty := stub.types) (Cl := Cl)
              (SearchCtx ctx "adidas" []) stub.init run.1.1 run.1.2 run.2
              (take 2 run.1.1) (drop 3 run.1.1) ctx "job-1" 0 0%nat 2%nat
              fresh_init (triple_eta _))
    as [[_ Hb]|(v & post' & Hpost & _ & Herr)].
  - vm_compute. reflexivity.
  - vm_compute in Hb. discriminate Hb.
  - exists post'. vm_compute in Hpost. injection Hpost as Hv Hp.
    split; [vm_compute; by rewrite Hp|]. by apply Herr.
Defined.

(** C6 on a run: the job is done at the first poll, and [nil] is read
    on the error channel before the response is read. *)
Lemma error_read_precedes_result_read_witness :
  let Cl := stub.client (inl "job-1") stub.poll_done in
  let run := call (SearchCtx context.Background "adidas" []) stub.init in
  EvRecv 2%nat (@MErr stub.types None) ∈ take 4 run.1.1
  ∧ (length (sends_on 1%nat run.1.2) ≤ 1)%nat.
Proof.
  intros Cl run.
  destruct (error_read_precedes_result_read (Ty := stub.types) (Cl := Cl)
              (SearchCtx context.Background "adidas" []) stub.init
              run.1.1 run.1.2 run.2 fresh_init (triple_eta _))
    as (Horder & Hlen & _).
  split; [|exact Hlen].
  apply (Horder context.Background "job-1" 0 0%nat 2%nat
           (take 4 run.1.1) (@MHttp stub.types "200 OK") (drop 5 run.1.1)).
  - vm_compute. do 2 apply list_elem_of_further. apply list_elem_of_here.
  - vm_compute. reflexivity.
Defined.

(** C7 on two runs: a domain that yandex does not accept, and a URL of
    another site. *)
Lemma invalid_input_returns_before_network_witness :
  let Cl := stub.client (inl "job-1") stub.poll_done in
  let opt :=
    {| YandexSearchOpts.Domain := "de"; YandexSearchOpts.StartPage := 0;
       YandexSearchOpts.Pages := 0; YandexSearchOpts.Limit := 0;
       YandexSearchOpts.Locale := ""; YandexSearchOpts.GeoLocation := "";
       YandexSearchOpts.UserAgent := ""; YandexSearchOpts.CallbackUrl := "";
       YandexSearchOpts.ParseInstructions := None;
       YandexSearchOpts.PollInterval := 0 |} in
  SerpClientAsync.ScrapeYandexSearchCtx context.Background "adidas"
    [Some opt] stub.init
  = ([], made3 stub.init, Returns (None, Some "invalid domain parameter: de"))
  ∧ SerpClientAsync.ScrapeYandexUrlCtx context.Background
      "https://www.google.com/" [] stub.init
    = ([], made3 stub.init, Returns (None, Some "URL does not belong to yandex")).
Proof.
  intros Cl opt.
  destruct (invalid_input_returns_before_network (Cl := Cl)) as [Hsearch Hurl].
  split.
  - eapply (Hsearch context.Background "adidas" [Some opt] stub.init).
    vm_compute. reflexivity.
  - eapply (Hurl context.Background "https://www.google.com/" [] stub.init).
    vm_compute. reflexivity.
Defined.

(** C9 on a URL whose host only contains [yandex]. *)
Lemma ValidateUrl_accepts_iff_witness :
  internal.ValidateUrl "https://notyandex.example.com/" "yandex" = None.
Proof.
  eapply (proj2 (ValidateUrl_accepts_iff (H := stub.parser)
                   "https://notyandex.example.com/" "yandex")
            _ "not" ".example.com"); [done | reflexivity | done | reflexivity].
Defined.

(** *** Further runs *)

Lemma fresh_after_call :
  let Cl := stub.client (inl "job-1") stub.poll_done in
  fresh_state (call (SearchCtx context.Background "adidas" []) stub.init).1.2.
Proof.
  intros Cl g c m Hg Hc. vm_compute in Hg.
  apply elem_of_cons in Hg as [->|Hg]; [by apply elem_of_nil in Hc|].
  apply list_elem_of_singleton in Hg as ->.
  apply list_elem_of_singleton in Hc. injection Hc as -> ->. vm_compute. lia.
Qed.

(** X2 on a URL of yandex: it passes for the host [yandex], so it passes
    for [ya] and for the empty host. *)
Lemma ValidateUrl_host_substring_witness :
  internal.ValidateUrl "https://yandex.com/search/?text=adidas" "ya" = None
  ∧ internal.ValidateUrl "https://yandex.com/search/?text=adidas" "" = None.
Proof.
  apply (ValidateUrl_host_substring (Ur := stub.parser)
           "https://yandex.com/search/?text=adidas" "yandex" "ya" "" "ndex");
    reflexivity.
Defined.

(** X6 on a run: a search that the transport answers. *)
Lemma sync_response_witness :
  let Cl := stub.client (inl "job-1") stub.poll_done in
  let e := SearchCtx context.Background "adidas" [] in
  let run := sync_call e stub.init in
  run.2 = Returns (Some "200 OK", None)
  ∧ call_refused e = None
  ∧ ∃ payload, marshalled run.1.1 = [payload]
      ∧ requests run.1.1 = [(context.Background, "{...}", "POST")].
Proof.
  intros Cl e run.
  assert (run.2 = Returns (Some "200 OK", None)) as Hret by (vm_compute; reflexivity).
  split; [exact Hret|].
  destruct (sync_response (Cl := Cl) e stub.init run.1.1 run.1.2 "200 OK")
    as (Href & payload & jsonPayload & httpResp & Hm & Hj & Hq & _).
  { vm_compute. reflexivity. }
  split; [exact Href|]. exists payload. split; [exact Hm|].
  rewrite Hq. injection Hj as <-. reflexivity.
Defined.

(** X7 on a run: [json.Marshal] fails, and nothing is sent. *)
Lemma sync_errors_returned_witness :
  let Cl := faulty.marshal_fails in
  let run := sync_call (Url "https://yandex.com/search/?text=adidas" []) stub.init in
  run.2 = Returns (None, Some "error marshalling payload: json: unsupported value")
  ∧ requests run.1.1 = [].
Proof.
  intros Cl run.
  assert (∃ payload, run.1.1 = [EvMarshal payload; EvCancel default_ctx])
    as [payload Htr] by (vm_compute; eauto).
  eapply (proj1 (sync_errors_returned (Cl := Cl)
                   (Url "https://yandex.com/search/?text=adidas" []) stub.init
                   run.1.1 run.1.2 run.2 (triple_eta _)) payload);
    [rewrite Htr; apply list_elem_of_here | reflexivity].
Defined.

(** X9 on two calls, one after the other: the first returns channel 1
    and the second channel 4. *)
Lemma calls_return_distinct_channels_witness :
  let Cl := stub.client (inl "job-1") stub.poll_done in
  let run1 := call (SearchCtx context.Background "adidas" []) stub.init in
  let run2 := call (Url "https://yandex.com/search/?text=adidas" []) run1.1.2 in
  run1.2 = Returns (Some 1%nat, None)
  ∧ run2.2 = Returns (Some 4%nat, None)
  ∧ (0 ≤ 1 < 3)%nat ∧ (1 < 4)%nat.
Proof.
  intros Cl run1 run2.
  split; [vm_compute; reflexivity|]. split; [vm_compute; reflexivity|].
  apply (calls_return_distinct_channels (Cl := Cl)
           (SearchCtx context.Background "adidas" [])
           (Url "https://yandex.com/search/?text=adidas" [])
           stub.init run1.1.2 run1.1.1 run1.1.2 1%nat None
           run2.1.1 run2.1.2 4%nat None).
  - vm_compute. reflexivity.
  - vm_compute. lia.
  - vm_compute. reflexivity.
Defined.

(** X10 on a run from the initial state. *)
Lemma call_keeps_fresh_witness :
  let Cl := stub.client (inl "job-1") stub.poll_done in
  fresh_state (call (Search "adidas" []) stub.init).1.2.
Proof.
  intros Cl. apply (call_keeps_fresh (Cl := Cl)), fresh_init.
Defined.

(** X11 on two calls: the response of the first call is still pending
    on its channel after the second call. *)
Lemma call_leaves_older_channels_witness :
  let Cl := stub.client (inl "job-1") stub.poll_done in
  let run1 := call (SearchCtx context.Background "adidas" []) stub.init in
  let run2 := call (Url "https://yandex.com/search/?text=adidas" []) run1.1.2 in
  sends_on 1%nat run2.1.2 = [@MResp stub.types "200 OK"].
Proof.
  intros Cl run1 run2.
  etrans; [apply (call_leaves_older_channels (Cl := Cl)
                    (Url "https://yandex.com/search/?text=adidas" [])
                    run1.1.2 1%nat fresh_after_call)|].
  - vm_compute. lia.
  - vm_compute. reflexivity.
Defined.

(** X12 on a run: the poller sends nothing. *)
Lemma blocked_call_has_submitted_witness :
  let Cl := faulty.silent in
  let e := Search "adidas" [] in
  let run := call e stub.init in
  run.2 = Blocks
  ∧ ∃ jobID pollInterval httpRespChan errChan,
      EvGo (GoPollJobStatus default_ctx jobID pollInterval httpRespChan errChan)
        ∈ run.1.1
      ∧ ∀ ctx, EvCancel ctx ∉ run.1.1.
Proof.
  intros Cl e run.
  assert (run.2 = Blocks) as Hret by (vm_compute; reflexivity).
  split; [exact Hret|].
  destruct (blocked_call_has_submitted (Cl := Cl) e stub.init run.1.1 run.1.2
              fresh_init)
    as (jsonPayload & jobID & i & h & ec & _ & _ & Hgo & _ & Hcancel).
  { vm_compute. reflexivity. }
  exists jobID, i, h, ec. split; [exact Hgo | exact Hcancel].
Defined.

(** X13 on a run: [json.Marshal] fails, and no job is submitted. *)
Lemma async_marshal_error_returned_witness :
  let Cl := faulty.marshal_fails in
  let run := call (SearchCtx context.Background "adidas" []) stub.init in
  run.2 = Returns (None, Some "error marshalling payload: json: unsupported value")
  ∧ submitted run.1.1 = []
  ∧ (∀ g, EvGo g ∉ run.1.1)
  ∧ goroutines run.1.2 = goroutines stub.init.
Proof.
  intros Cl run.
  assert (∃ payload, run.1.1 = [EvMarshal payload])
    as [payload Htr] by (vm_compute; eauto).
  apply (async_marshal_error_returned (Cl := Cl)
           (SearchCtx context.Background "adidas" []) stub.init
           run.1.1 run.1.2 run.2 payload "json: unsupported value").
  - apply triple_eta.
  - rewrite Htr. apply list_elem_of_here.
  - reflexivity.
Defined.

(** X14 on a run: a search whose options ask for a poll every 7 ns. *)
Lemma poller_arguments_witness :
  let Cl := stub.client (inl "job-1") stub.poll_done in
  let opt :=
    {| YandexSearchOpts.Domain := ""; YandexSearchOpts.StartPage := 0;
       YandexSearchOpts.Pages := 0; YandexSearchOpts.Limit := 0;
       YandexSearchOpts.Locale := ""; YandexSearchOpts.GeoLocation := "";
       YandexSearchOpts.UserAgent := ""; YandexSearchOpts.CallbackUrl := "";
       YandexSearchOpts.ParseInstructions := None;
       YandexSearchOpts.PollInterval := 7 |} in
  let e := Search "adidas" [Some opt] in
  let run := call e stub.init in
  EvGo (@GoPollJobStatus stub.types default_ctx "job-1" 7 0%nat 2%nat) ∈ run.1.1
  ∧ submitted run.1.1 = ["{...}"].
Proof.
  intros Cl opt e run.
  assert (EvGo (@GoPollJobStatus stub.types default_ctx "job-1" 7 0%nat 2%nat)
            ∈ run.1.1) as Hgo.
  { vm_compute. do 2 apply list_elem_of_further. apply list_elem_of_here. }
  split; [exact Hgo|].
  destruct (poller_arguments (Cl := Cl) e stub.init run.1.1 run.1.2 run.2
              default_ctx "job-1" 7 0%nat 2%nat (triple_eta _) Hgo)
    as (_ & _ & _ & _ & jsonPayload & Hj & Hsub).
  rewrite Hsub. vm_compute in Hsub. by injection Hsub as <-.
Defined.

(** C4 on two runs under a context that is cancelled before the call:
    with a poller that reports the cancellation the call returns it, and
    with a poller that does not look at the context the call returns as
    under [context.Background]. *)
Lemma submission_ignores_context_witness :
  let ctx := context.WithCancel context.Background true in
  (let Cl := stub.client (inl "job-1") stub.poll_done in
   (call (SearchCtx ctx "adidas" []) stub.init).2
   = Returns (None, Some "context canceled"))
  ∧ (let Cl := faulty.ignores_context in
     (call (SearchCtx ctx "adidas" []) stub.init).2
     = (call (SearchCtx context.Background "adidas" []) stub.init).2
     ∧ (call (SearchCtx ctx "adidas" []) stub.init).2
       = Returns (Some 1%nat, None)).
Proof.
  intros ctx. split.
  - intros Cl.
    destruct (submission_ignores_context (Cl := Cl) ctx ctx stub.init)
      as (_ & _ & _ & Herr & _).
    set (run := call (SearchCtx ctx "adidas" []) stub.init).
    apply (Herr (SearchCtx ctx "adidas" []) run.1.1 run.1.2 run.2
             "job-1" 0 0%nat 2%nat "context canceled" []
             fresh_init (triple_eta _)).
    + vm_compute. do 2 apply list_elem_of_further. apply list_elem_of_here.
    + reflexivity.
  - intros Cl.
    destruct (submission_ignores_context (Cl := Cl) ctx context.Background
                stub.init) as (_ & _ & _ & _ & Hsame).
    destruct Hsame as [Hsearch _]; [reflexivity|].
    destruct (Hsearch "adidas" []) as [Hr _].
    split; [exact Hr|]. vm_compute. reflexivity.
Defined.

(** C10 on a run: of three options the last one is in the payload. *)
Lemma options_last_only_witness :
  let Cl := stub.client (inl "job-1") stub.poll_done in
  let opt1 :=
    {| YandexSearchOpts.Domain := "ru"; YandexSearchOpts.StartPage := 2;
       YandexSearchOpts.Pages := 3; YandexSearchOpts.Limit := 5;
       YandexSearchOpts.Locale := "ru"; YandexSearchOpts.GeoLocation := "";
       YandexSearchOpts.UserAgent := "mobile";
       YandexSearchOpts.CallbackUrl := "https://first.example/";
       YandexSearchOpts.ParseInstructions := None;
       YandexSearchOpts.PollInterval := 3 |} in
  let opt2 :=
    {| YandexSearchOpts.Domain := "tr"; YandexSearchOpts.StartPage := 0;
       YandexSearchOpts.Pages := 0; YandexSearchOpts.Limit := 0;
       YandexSearchOpts.Locale := "tr"; YandexSearchOpts.GeoLocation := "";
       YandexSearchOpts.UserAgent := "";
       YandexSearchOpts.CallbackUrl := "https://last.example/";
       YandexSearchOpts.ParseInstructions := None;
       YandexSearchOpts.PollInterval := 7 |} in
  let run :=
    SerpClientAsync.ScrapeYandexSearchCtx context.Background "adidas"
      [Some opt1; None; Some opt2] stub.init in
  ∃ payload,
    marshalled run.1.1 = [payload]
    ∧ payload !! "domain" = Some (JStr "tr")
    ∧ payload !! "start_page" = Some (JNum 1)
    ∧ payload !! "user_agent_type" = Some (JStr "desktop")
    ∧ payload !! "callback_url" = Some (JStr "https://last.example/")
    ∧ payload !! "parsing_instructions" = None.
Proof.
  intros Cl opt1 opt2 run.
  destruct (options_last_only (Cl := Cl)) as (_ & _ & _ & _ & _ & Hsearch & _).
  destruct (Hsearch context.Background "adidas" [Some opt1; None; Some opt2]
              stub.init) as (_ & _ & Hrun & _).
  unfold search_run_with, run_with in Hrun.
  change (last_or_zero _ _) with opt2 in Hrun.
  assert (YandexSearchOpts_checkParameterValidity (search_defaults opt2) = None)
    as Hvalid by (vm_compute; reflexivity).
  rewrite Hvalid in Hrun. destruct Hrun as [(payload & Hm & Hfields) _].
  exists payload. split; [exact Hm|].
  split_and!; apply Hfields; unfold search_fields.
  - apply list_elem_of_here.
  - apply list_elem_of_further, list_elem_of_here.
  - do 6 apply list_elem_of_further. apply list_elem_of_here.
  - do 7 apply list_elem_of_further. apply list_elem_of_here.
  - do 8 apply list_elem_of_further. apply list_elem_of_here.
Defined.

End Examples.
